(** * k3s-upgrade-monitor: the job watcher of [main.py]

    A shallow embedding of the monitoring script and the properties of its
    job-name parser, version lookup, notifier, transition tracker and main
    routine.

    Python strings are modelled as [string] (the UTF-8 bytes of the text:
    splitting on the ASCII hyphen and comparing with ASCII literals is the
    same on bytes and on code points), the [job_states] dict as a
    [gmap string string], Python exceptions as values of a result type,
    and the outside world (cluster API, HTTP endpoint, clock) as an abstract
    state with oracles. *)

From Stdlib Require Import ZArith String Ascii List Lia DecimalString.
From stdpp Require Import base gmap strings list.
Import ListNotations.

Local Open Scope string_scope.
Local Open Scope list_scope.

(** ** Python string primitives *)

Module Py.

(** [s.split(sep)] for a one-character separator: never returns an empty
    list; [''.split('-')] is ['']. *)
Fixpoint split (sep : ascii) (s : string) : list string :=
  match s with
  | EmptyString => [EmptyString]
  | String c s' =>
      if Ascii.eqb c sep then EmptyString :: split sep s'
      else match split sep s' with
           | [] => [String c EmptyString]
           | h :: t => String c h :: t
           end
  end.

(** [sep.join(parts)]. *)
Fixpoint join (sep : string) (parts : list string) : string :=
  match parts with
  | [] => EmptyString
  | [p] => p
  | p :: rest => p +:+ sep +:+ join sep rest
  end.

(** [parts.index(x)]: the position of the first element equal to [x];
    [None] stands for the [ValueError] Python raises when there is none. *)
Fixpoint index (x : string) (parts : list string) : option nat :=
  match parts with
  | [] => None
  | p :: rest =>
      if String.eqb p x then Some 0
      else match index x rest with
           | Some i => Some (S i)
           | None => None
           end
  end.

(** [parts[a:b]] for indices [0 <= a], [0 <= b]: empty when [b <= a]. *)
Definition slice {A} (a b : nat) (parts : list A) : list A :=
  take (b - a) (drop a parts).

(** [s.startswith(p)]. *)
Definition startswith (p s : string) : bool := String.prefix p s.

(** [needle in hay] on strings. *)
Fixpoint contains (needle hay : string) : bool :=
  if String.prefix needle hay then true
  else match hay with
       | EmptyString => false
       | String _ hay' => contains needle hay'
       end.

(** Truthiness of a string: the empty string is falsy. *)
Definition truthy (s : string) : bool := negb (String.eqb s EmptyString).

(** [str(n)] for an integer, as an f-string prints it. *)
Definition str_int (n : Z) : string := NilZero.string_of_int (Z.to_int n).

End Py.

(** ** Job Name Parser *)

Definition dash : ascii := "-"%char.

(** [get_node_info_from_job_name]: [Some (node_name, plan_name)], or [None]
    for the pair [(None, None)]. *)
Definition get_node_info_from_job_name (job_name : string) : option (string * string) :=
  let parts := Py.split dash job_name in
  if Nat.ltb (length parts) 4 then None
  else
    match Py.index "on" parts with
    | None => None
    | Some on_index =>
        match Py.index "with" parts with
        | None => None
        | Some with_index =>
            let node_name := Py.join "-" (Py.slice (on_index + 1) with_index parts) in
            let plan_name := Py.join "-" (Py.slice 1 on_index parts) in
            Some (node_name, plan_name)
        end
    end.

(** The classification of line 92: ["Master" if "master" in plan_name else "Worker"]. *)
Definition node_type (plan_name : string) : string :=
  if Py.contains "master" plan_name then "Master" else "Worker".

(** A job name of the documented shape. *)
Definition upgrade_job_name (plan node hash : string) : string :=
  "apply-" +:+ plan +:+ "-on-" +:+ node +:+ "-with-" +:+ hash.

(** The hyphen-delimited tokens of a name. *)
Definition tokens (s : string) : list string := Py.split dash s.

(** ** Exceptions, effects and the outside world *)

(** An instance of Python's [Exception]; [str_exn e] is what an f-string
    prints for it. Signals that are not [Exception]s (an external
    termination) are outside the model. *)
Inductive exn := Exception (msg : string).

Definition str_exn (e : exn) : string := let 'Exception msg := e in msg.

Inductive Res (A : Type) :=
| Ok (a : A)
| Raise (e : exn).
Arguments Ok {A} a.
Arguments Raise {A} e.

(** A [datetime] of the cluster API, as microseconds on the UTC time line. *)
Definition datetime := Z.

(** [timedelta.total_seconds()] is the true division of the integer count
    of microseconds by [10**6]: the binary64 float nearest to the quotient,
    ties to the even mantissa. The float of a positive quotient is kept as
    its 53-bit mantissa [m] and exponent [e], with value [m * 2^e]; a
    quotient of microsecond counts by [10**6] is neither subnormal nor
    above the largest float. *)

(** The integer nearest to [a / b], ties to even, for [0 <= a], [0 < b]. *)
Definition div_half_even (a b : Z) : Z :=
  (let q := a / b in
   let r := a mod b in
   if 2 * r <? b then q
   else if b <? 2 * r then q + 1
   else if Z.even q then q else q + 1)%Z.

(** [floor (log2 (n / d))] for positive [n] and [d]. *)
Definition ratio_log2 (n d : Z) : Z :=
  (let t := Z.log2 n - Z.log2 d in
   if (if 0 <=? t then d * 2 ^ t <=? n else d <=? n * 2 ^ (- t)) then t else t - 1)%Z.

(** [n / d] on positive integers, as Python computes it: correctly rounded
    to 53 bits. *)
Definition true_divide (n d : Z) : Z * Z :=
  (let e := ratio_log2 n d - 52 in
   (if 0 <=? e then div_half_even n (d * 2 ^ e) else div_half_even (n * 2 ^ (- e)) d,
    e))%Z.

(** [int(f)] for a positive float [f = m * 2^e]: the integer part. *)
Definition int_of_float (f : Z * Z) : Z :=
  (let '(m, e) := f in
   if 0 <=? e then m * 2 ^ e else m / 2 ^ (- e))%Z.

(** [int((a - b).total_seconds())]: the float of the difference in
    seconds, cut to its integer part; rounding and cutting are symmetric
    around zero. *)
Definition delta_seconds (a b : datetime) : Z :=
  (Z.sgn (a - b) * int_of_float (true_divide (Z.abs (a - b)) 1000000))%Z.

(** The metadata of a job returned by the API server: its name, uid and
    namespace are strings. (An object whose name is [None] would make line
    84 raise [AttributeError]; the API server returns no such job.) *)
Record V1ObjectMeta := { name : string; uid : string; namespace : string }.

Record V1JobStatus := {
  active : option Z;
  succeeded : option Z;
  failed : option Z;
  start_time : option datetime;
  completion_time : option datetime
}.

Record V1Job := { metadata : V1ObjectMeta; status : V1JobStatus }.

(** A watch event: the dict with keys ['type'] and ['object']. *)
Record WatchEvent := { type : string; object : V1Job }.

Record V1NodeSystemInfo := { kubelet_version : string }.
Record V1NodeStatus := { node_info : option V1NodeSystemInfo }.
Record V1Node := { node_status : option V1NodeStatus }.

(** The arguments of [requests.post] and the part of its response the
    script reads. *)
Record Request := {
  url : string;
  data : string;
  headers : list (string * string);
  timeout : Z
}.

Record Response := { status_code : Z }.

(** Truthiness of an optional count ([None] and [0] are falsy). *)
Definition truthy_count (n : option Z) : bool :=
  match n with
  | Some k => negb (Z.eqb k 0)
  | None => false
  end.

(** What the script does to the outside, in order. [Notification] records
    a call of the Notifier with its (title, body, priority) triple; the
    I/O of that call follows it. *)
Inductive Effect :=
| Print (line : string)
| Notification (title body priority : string)
| HttpPost (request : Request)
| ReadNode (node_name : string)
| ListJobs
| WatchStream
| Sleep (seconds : Z).

(** The cluster API, the HTTP endpoint and the clock, as oracles over an
    abstract world [W]. A watch stream is given by the events it yields and
    by how it ends: [None] when the generator is exhausted, [Some e] when it
    raises [e]. *)
Class Cluster (W : Type) := {
  requests_post : W -> Request -> W * Res Response;
  read_node : W -> string -> W * Res V1Node;
  list_job_for_all_namespaces : W -> W * Res (list V1Job);
  watch_stream : W -> W * (list WatchEvent * option exn);
  strftime_now : W -> string
}.

(** The two environment variables, after [.strip()]. *)
Record Config := { NTFY_URL : string; TITLE_PREFIX : string }.

(** The process state: the world and the module-level dict [job_states]. *)
Record St (W : Type) := { world : W; job_states : gmap string string }.
Arguments world {W} s.
Arguments job_states {W} s.
Arguments Build_St {W} world job_states.

(** The newline of the triple-quoted message templates. *)
Definition nl : string := String (ascii_of_nat 10) EmptyString.

(** ** The monad of the script: state, exceptions and an effect log *)

Section Script.
Context {W : Type} {cluster : Cluster W}.
Variable cfg : Config.

Definition M (A : Type) : Type := St W -> Res A * St W * list Effect.

Definition ret {A} (a : A) : M A := fun s => (Ok a, s, []).

Definition bind {A B} (m : M A) (f : A -> M B) : M B :=
  fun s =>
    match m s with
    | (Ok a, s1, out1) => let '(r, s2, out2) := f a s1 in (r, s2, out1 ++ out2)
    | (Raise e, s1, out1) => (Raise e, s1, out1)
    end.

Definition raise {A} (e : exn) : M A := fun s => (Raise e, s, []).

(** [try: body  except Exception as e: handler e]. *)
Definition try_except {A} (body : M A) (handler : exn -> M A) : M A :=
  fun s =>
    match body s with
    | (Ok a, s1, out1) => (Ok a, s1, out1)
    | (Raise e, s1, out1) => let '(r, s2, out2) := handler e s1 in (r, s2, out1 ++ out2)
    end.

Definition emit (e : Effect) : M unit := fun s => (Ok tt, s, [e]).
Definition print (line : string) : M unit := emit (Print line).

Definition get_job_states : M (gmap string string) :=
  fun s => (Ok (job_states s), s, []).

(** [job_states[k] = v]. *)
Definition set_job_state (k v : string) : M unit :=
  fun s => (Ok tt, Build_St (world s) (<[k := v]> (job_states s)), []).

Definition now : M string := fun s => (Ok (strftime_now (world s)), s, []).

(** An oracle call: the request is logged, the world moves on. *)
Definition ask {A} (e : Effect) (oracle : W -> W * Res A) : M A :=
  fun s => let '(w, r) := oracle (world s) in (r, Build_St w (job_states s), [e]).

(** [o.attr] where [o] may be [None]. *)
Definition getattr {A} (o : option A) (attr : string) : M A :=
  match o with
  | Some a => ret a
  | None => raise (Exception ("'NoneType' object has no attribute '" +:+ attr +:+ "'"))
  end.

#[local] Instance M_ret : MRet M := @ret.
#[local] Instance M_bind : MBind M := fun A B f m => bind m f.

(** *** Notifier *)

Definition post (request : Request) : M Response :=
  ask (HttpPost request) (fun w => requests_post w request).

Definition send_ntfy_notification (title message priority : string) : M unit :=
  emit (Notification title message priority);;
  if negb (Py.truthy (NTFY_URL cfg)) then
    print ("No ntfy URL configured, skipping notification: " +:+ title)
  else
    try_except
      (response ← post {| url := NTFY_URL cfg;
                          data := message;
                          headers := [("Title", TITLE_PREFIX cfg +:+ " - " +:+ title);
                                      ("Priority", priority);
                                      ("Content-Type", "text/markdown; charset=utf-8")];
                          timeout := 10 |};
       if Z.eqb (status_code response) 200 then
         print ("Notification sent: " +:+ title)
       else
         print ("Failed to send notification: " +:+ Py.str_int (status_code response)))
      (fun e => print ("Error sending notification: " +:+ str_exn e)).

(** *** Version Lookup *)

Definition get_k3s_version_from_node (node_name : string) : M string :=
  try_except
    (node ← ask (ReadNode node_name) (fun w => read_node w node_name);
     node_status ← getattr (node_status node) "node_info";
     node_info ← getattr (node_info node_status) "kubelet_version";
     ret (kubelet_version node_info))
    (fun e =>
       print ("Error getting node version for " +:+ node_name +:+ ": " +:+ str_exn e) ;;
       ret "unknown").

(** *** Transition Tracker *)

Definition started_message (node_type node_name k3s_version plan_name current_time : string)
  : string :=
  "🚀 **" +:+ node_type +:+ " Upgrade Started**" +:+ nl +:+
  "📍 **Node:** " +:+ node_name +:+ nl +:+
  "📊 **Current Version:** " +:+ k3s_version +:+ nl +:+
  "📋 **Plan:** " +:+ plan_name +:+ nl +:+
  "⏰ **Started:** " +:+ current_time.

(** Lines 117-120: the duration suffix of the completion message. *)
Definition duration_field (st : V1JobStatus) : string :=
  match completion_time st, start_time st with
  | Some c, Some b =>
      nl +:+ "    ⚡ **Duration:** " +:+ Py.str_int (delta_seconds c b) +:+ "s"
  | _, _ => EmptyString
  end.

Definition completed_message
  (node_type node_name k3s_version plan_name current_time duration : string) : string :=
  "✅ **" +:+ node_type +:+ " Upgrade Completed**" +:+ nl +:+
  "📍 **Node:** " +:+ node_name +:+ nl +:+
  "🎉 **New Version:** " +:+ k3s_version +:+ nl +:+
  "📋 **Plan:** " +:+ plan_name +:+ nl +:+
  "⏰ **Completed:** " +:+ current_time +:+ duration.

Definition failed_message
  (node_type node_name k3s_version plan_name current_time job_name : string) : string :=
  "❌ **" +:+ node_type +:+ " Upgrade Failed**" +:+ nl +:+
  "📍 **Node:** " +:+ node_name +:+ nl +:+
  "📊 **Version:** " +:+ k3s_version +:+ nl +:+
  "📋 **Plan:** " +:+ plan_name +:+ nl +:+
  "⏰ **Failed:** " +:+ current_time +:+ nl +:+
  "🔍 **Action:** Check logs with `kubectl logs -n system-upgrade " +:+ job_name +:+ "`".

(** [job_states.get(job_uid) != v]. *)
Definition state_differs (states : gmap string string) (job_uid v : string) : bool :=
  match states !! job_uid with
  | Some v' => negb (String.eqb v' v)
  | None => true
  end.

(** [job_uid not in job_states]. *)
Definition untracked (states : gmap string string) (job_uid : string) : bool :=
  match states !! job_uid with
  | Some _ => false
  | None => true
  end.

Definition handle_job_event (event : WatchEvent) (job : V1Job) : M unit :=
  let job_name := name (metadata job) in
  let job_uid := uid (metadata job) in
  let namespace := namespace (metadata job) in
  if negb (String.eqb namespace "system-upgrade") then ret tt
  else if negb (Py.startswith "apply-" job_name) then ret tt
  else
    match get_node_info_from_job_name job_name with
    | None => ret tt
    | Some (node_name, plan_name) =>
        if negb (Py.truthy node_name) || negb (Py.truthy plan_name) then ret tt
        else
          let node_type := node_type plan_name in
          current_time ← now;
          if String.eqb (type event) "ADDED" || String.eqb (type event) "MODIFIED" then
            states ← get_job_states;
            if truthy_count (active (status job)) && untracked states job_uid then
              set_job_state job_uid "running";;
              k3s_version ← get_k3s_version_from_node node_name;
              send_ntfy_notification (node_type +:+ " Upgrade Started")
                (started_message node_type node_name k3s_version plan_name current_time)
                "default";;
              print ("Job started: " +:+ job_name +:+ " on " +:+ node_name)
            else if truthy_count (succeeded (status job))
                    && state_differs states job_uid "succeeded" then
              set_job_state job_uid "succeeded";;
              k3s_version ← get_k3s_version_from_node node_name;
              send_ntfy_notification (node_type +:+ " Upgrade Completed")
                (completed_message node_type node_name k3s_version plan_name current_time
                   (duration_field (status job)))
                "default";;
              print ("Job completed: " +:+ job_name +:+ " on " +:+ node_name)
            else if truthy_count (failed (status job))
                    && state_differs states job_uid "failed" then
              set_job_state job_uid "failed";;
              k3s_version ← get_k3s_version_from_node node_name;
              send_ntfy_notification (node_type +:+ " Upgrade Failed")
                (failed_message node_type node_name k3s_version plan_name current_time
                   job_name)
                "high";;
              print ("Job failed: " +:+ job_name +:+ " on " +:+ node_name)
            else ret tt
          else ret tt
    end.

(** *** Event Loop *)

(** Lines 162-164: register the existing upgrade jobs as ['initialized']. *)
Fixpoint seed (jobs : list V1Job) : M unit :=
  match jobs with
  | [] => ret tt
  | job :: rest =>
      (if String.eqb (namespace (metadata job)) "system-upgrade"
          && Py.startswith "apply-" (name (metadata job))
       then set_job_state (uid (metadata job)) "initialized"
       else ret tt);;
      seed rest
  end.

(** Lines 167-171: the loop over the watch stream; an exception of one
    event's handling is printed and the loop goes on, an exception of the
    stream itself leaves the loop. *)
Fixpoint stream_loop (events : list WatchEvent) (ending : option exn) : M unit :=
  match events with
  | [] => match ending with
          | Some e => raise e
          | None => ret tt
          end
  | event :: rest =>
      try_except (handle_job_event event (object event))
        (fun e => print ("Error handling job event: " +:+ str_exn e));;
      stream_loop rest ending
  end.

Definition sleep (seconds : Z) : M unit := emit (Sleep seconds).

(** [w.stream(batch_v1.list_job_for_all_namespaces, timeout_seconds=0)]. *)
Definition open_stream : M (list WatchEvent * option exn) :=
  fun s => let '(w, stream) := watch_stream (world s) in
           (Ok stream, Build_St w (job_states s), [WatchStream]).

Definition main : M unit :=
  print "Starting K3s upgrade monitor...";;
  print ("NTFY URL: " +:+
         (if Py.truthy (NTFY_URL cfg) then "configured" else "not configured"));;
  (if Py.truthy (NTFY_URL cfg) then
     started_at ← now;
     send_ntfy_notification "Monitor Started"
       ("📡 K3s upgrade monitoring service started at " +:+ started_at) "default"
   else ret tt);;
  try_except
    (jobs ← ask ListJobs list_job_for_all_namespaces;
     seed jobs;;
     stream ← open_stream;
     stream_loop (fst stream) (snd stream))
    (fun e =>
       print ("Error in main loop: " +:+ str_exn e);;
       (if Py.truthy (NTFY_URL cfg) then
          send_ntfy_notification "Monitor Error"
            ("⚠️ K3s upgrade monitor encountered an error: " +:+ str_exn e) "high"
        else ret tt);;
       sleep 10).
End Script.

(** ** Reading the effect log *)

(** The (title, body, priority) triples the Notifier was called with. *)
Fixpoint notifications (out : list Effect) : list (string * string * string) :=
  match out with
  | [] => []
  | Notification title body priority :: rest => (title, body, priority) :: notifications rest
  | _ :: rest => notifications rest
  end.

(** The lifecycle transitions a notification can report. *)
Inductive Transition := Started | Completed | Failed.

#[global] Instance Transition_eq_dec : EqDecision Transition.
Proof. solve_decision. Defined.

(** The transition a notification title announces; titles of the monitor's
    own notices ("Monitor Started", "Monitor Error") announce none. *)
Definition transition_of_title (title : string) : option Transition :=
  if String.eqb title "Master Upgrade Started" || String.eqb title "Worker Upgrade Started"
  then Some Started
  else if String.eqb title "Master Upgrade Completed"
          || String.eqb title "Worker Upgrade Completed"
  then Some Completed
  else if String.eqb title "Master Upgrade Failed" || String.eqb title "Worker Upgrade Failed"
  then Some Failed
  else None.

Definition transitions (out : list Effect) : list Transition :=
  omap (fun n => transition_of_title (fst (fst n))) (notifications out).

(** The request the Notifier posts for a notification. *)
Definition ntfy_request (cfg : Config) (title message priority : string) : Request :=
  {| url := NTFY_URL cfg;
     data := message;
     headers := [("Title", TITLE_PREFIX cfg +:+ " - " +:+ title);
                 ("Priority", priority);
                 ("Content-Type", "text/markdown; charset=utf-8")];
     timeout := 10 |}.

(** The line the Notifier prints after the endpoint answered or failed. *)
Definition ntfy_log_line (title : string) (answer : Res Response) : string :=
  match answer with
  | Ok response =>
      if Z.eqb (status_code response) 200 then "Notification sent: " +:+ title
      else "Failed to send notification: " +:+ Py.str_int (status_code response)
  | Raise e => "Error sending notification: " +:+ str_exn e
  end.

(** The version a node object reports: the attribute chain of line 68. *)
Definition reported_version (answer : Res V1Node) : option string :=
  match answer with
  | Ok {| node_status := Some {| node_info := Some info |} |} => Some (kubelet_version info)
  | _ => None
  end.

(** The version the lookup of [node_name] yields in world [w]. *)
Definition looked_up_version {W} `{Cluster W} (w : W) (node_name : string) : string :=
  default "unknown" (reported_version (snd (read_node w node_name))).

(** The events the Transition Tracker acts on: an ADDED or MODIFIED event
    for a job of the monitored namespace whose name starts with [apply-] and
    parses to a non-empty node name and plan name (lines 80-97). *)
Definition Dispatched (event : WatchEvent) (job : V1Job) (node_name plan_name : string)
  : Prop :=
  (type event = "ADDED" \/ type event = "MODIFIED")
  /\ namespace (metadata job) = "system-upgrade"
  /\ Py.startswith "apply-" (name (metadata job)) = true
  /\ get_node_info_from_job_name (name (metadata job)) = Some (node_name, plan_name)
  /\ node_name <> EmptyString
  /\ plan_name <> EmptyString.

(** The gate as a function: the target of a dispatched event. *)
Definition dispatch (event : WatchEvent) (job : V1Job) : option (string * string) :=
  if String.eqb (namespace (metadata job)) "system-upgrade"
     && Py.startswith "apply-" (name (metadata job))
  then
    match get_node_info_from_job_name (name (metadata job)) with
    | Some (node_name, plan_name) =>
        if Py.truthy node_name && Py.truthy plan_name
           && (String.eqb (type event) "ADDED" || String.eqb (type event) "MODIFIED")
        then Some (node_name, plan_name)
        else None
    | None => None
    end
  else None.

(** ** Sequences of observations *)

Section Runs.
Context {W : Type} {cluster : Cluster W}.
Variable cfg : Config.

(** The state after handling the calls in order. *)
Fixpoint run_calls (calls : list (WatchEvent * V1Job)) (s : St W) : St W :=
  match calls with
  | [] => s
  | (event, job) :: rest =>
      let '(_, s1, _) := handle_job_event cfg event job s in run_calls rest s1
  end.

(** The transitions announced, in order, by those of the calls that are
    about the job identity [job_uid]. *)
Fixpoint transitions_of (job_uid : string) (calls : list (WatchEvent * V1Job)) (s : St W)
  : list Transition :=
  match calls with
  | [] => []
  | (event, job) :: rest =>
      let '(_, s1, out) := handle_job_event cfg event job s in
      (if String.eqb (uid (metadata job)) job_uid then transitions out else [])
      ++ transitions_of job_uid rest s1
  end.
End Runs.

(** No two consecutive transitions are the same. *)
Fixpoint alternating (ts : list Transition) : Prop :=
  match ts with
  | a :: (b :: _) as rest => a <> b /\ alternating rest
  | _ => True
  end.

(** A tracked state is terminal when it is ['succeeded'] or ['failed']. *)
Definition terminal (tracked : option string) : Prop :=
  tracked = Some "succeeded" \/ tracked = Some "failed".

(** ** A scripted world for concrete runs *)

(** The endpoint answers 200, every node reports one version, the clock
    stands still; the job list, the watch events and the end of the stream
    are given. *)
Definition scripted (jobs : list V1Job) (events : list WatchEvent) (ending : option exn)
  : Cluster unit :=
  {| requests_post := fun w _ => (w, Ok {| status_code := 200 |});
     read_node := fun w _ =>
       (w, Ok {| node_status :=
                   Some {| node_info := Some {| kubelet_version := "v1.30.2+k3s1" |} |} |});
     list_job_for_all_namespaces := fun w => (w, Ok jobs);
     watch_stream := fun w => (w, (events, ending));
     strftime_now := fun _ => "2024-05-01 12:00:00" |}.

Definition quiet_world : Cluster unit := scripted [] [] None.

(** No job exists yet, and the watch stream raises before its first event. *)
Definition dropped_stream_world : Cluster unit :=
  scripted [] [] (Some (Exception "connection dropped")).

Definition cfg_ntfy : Config :=
  {| NTFY_URL := "https://ntfy.example/k3s"; TITLE_PREFIX := "K3s Upgrade" |}.

Definition cfg_silent : Config := {| NTFY_URL := EmptyString; TITLE_PREFIX := "K3s Upgrade" |}.

Definition upgrade_job (job_uid : string) (st : V1JobStatus) : V1Job :=
  {| metadata := {| name := "apply-k3s-master-plan-on-node-1-with-ab12cd";
                    uid := job_uid;
                    namespace := "system-upgrade" |};
     status := st |}.

Definition status_active : V1JobStatus :=
  {| active := Some 1%Z; succeeded := None; failed := None;
     start_time := Some 1714564800000000%Z; completion_time := None |}.

Definition status_succeeded : V1JobStatus :=
  {| active := None; succeeded := Some 1%Z; failed := None;
     start_time := Some 1714564800000000%Z;
     completion_time := Some 1714564861500000%Z |}.

Definition status_failed : V1JobStatus :=
  {| active := None; succeeded := None; failed := Some 1%Z;
     start_time := Some 1714564800000000%Z; completion_time := None |}.

(** One pod failed, the retry succeeded: both counts are set. *)
Definition status_retried : V1JobStatus :=
  {| active := None; succeeded := Some 1%Z; failed := Some 1%Z;
     start_time := Some 1714564800000000%Z;
     completion_time := Some 1714564861500000%Z |}.

Definition modified (job : V1Job) : WatchEvent := {| type := "MODIFIED"; object := job |}.

Definition state_of (states : gmap string string) : St unit :=
  {| world := tt; job_states := states |}.

(** ** Classes of effects *)

(** An HTTP request. *)
Definition is_http (e : Effect) : Prop :=
  match e with
  | HttpPost _ => True
  | _ => False
  end.

(** The effects of the event loop itself: listing, watching, sleeping. *)
Definition is_control (e : Effect) : Prop :=
  match e with
  | ListJobs | WatchStream | Sleep _ => True
  | _ => False
  end.

(** Every effect a computation logs, from any state, satisfies [P]. *)
Definition emits_only {W A : Type} (P : Effect -> Prop)
  (m : St W -> Res A * St W * list Effect) : Prop :=
  forall s, Forall P (snd (m s)).

(** The calls the stream loop makes for a list of events (line 169). *)
Definition calls_of (events : list WatchEvent) : list (WatchEvent * V1Job) :=
  map (fun event => (event, object event)) events.

(** A world in which every request fails: the endpoint refuses the
    connection, the cluster API raises on every read and listing. *)
Definition failing_world : Cluster unit :=
  {| requests_post := fun w _ => (w, Raise (Exception "connection refused"));
     read_node := fun w _ => (w, Raise (Exception "node not found"));
     list_job_for_all_namespaces := fun w => (w, Raise (Exception "api unreachable"));
     watch_stream := fun w => (w, ([], None));
     strftime_now := fun _ => "2024-05-01 12:00:00" |}.

(** Counting effects of one kind in a log. *)
Definition is_read (e : Effect) : bool :=
  match e with
  | ReadNode _ => true
  | _ => false
  end.

Definition is_post (e : Effect) : bool :=
  match e with
  | HttpPost _ => true
  | _ => false
  end.

Definition count_effects (kind : Effect -> bool) (out : list Effect) : nat :=
  length (List.filter kind out).

(** A computation logs at most [n] effects of a kind, from any state. *)
Definition logs_at_most {W A : Type} (kind : Effect -> bool) (n : nat)
  (m : St W -> Res A * St W * list Effect) : Prop :=
  forall s, count_effects kind (snd (m s)) <= n.

(** A job of another namespace with an upgrade-like name. *)
Definition foreign_job : V1Job :=
  {| metadata := {| name := "apply-k3s-master-plan-on-node-1-with-ab12cd";
                    uid := "uid-9";
                    namespace := "kube-system" |};
     status := status_active |}.

(** * Properties *)

(** ** Facts about the string primitives *)

Section SplitJoin.
Variable sep : ascii.

Lemma split_nonempty (s : string) : Py.split sep s <> [].
Proof.
  destruct s as [|c s]; simpl; [discriminate|].
  destruct (Ascii.eqb c sep); [discriminate|].
  destruct (Py.split sep s); discriminate.
Qed.

Lemma split_app (a b : string) :
  Py.split sep (a +:+ String sep b) = Py.split sep a ++ Py.split sep b.
Proof.
  induction a as [|c a IH]; simpl.
  - now rewrite Ascii.eqb_refl.
  - destruct (Ascii.eqb c sep); [now rewrite IH|].
    rewrite IH. pose proof (split_nonempty a) as Hne.
    destruct (Py.split sep a); [congruence|reflexivity].
Qed.

Lemma join_cons_cons (p q : string) (rest : list string) :
  Py.join (String sep EmptyString) (p :: q :: rest)
  = p +:+ String sep (Py.join (String sep EmptyString) (q :: rest)).
Proof. reflexivity. Qed.

Lemma join_split (s : string) :
  Py.join (String sep EmptyString) (Py.split sep s) = s.
Proof.
  induction s as [|c s IH]; [reflexivity|].
  pose proof (split_nonempty s) as Hne. simpl Py.split.
  destruct (Ascii.eqb_spec c sep) as [->|Hc].
  - destruct (Py.split sep s) as [|h t]; [congruence|].
    rewrite join_cons_cons, IH. reflexivity.
  - destruct (Py.split sep s) as [|h [|h' t]]; [congruence| |].
    + simpl in *. now rewrite IH.
    + rewrite <- IH. reflexivity.
Qed.
End SplitJoin.

Lemma index_app_first (x : string) (l1 l2 : list string) :
  x ∉ l1 -> Py.index x (l1 ++ x :: l2) = Some (length l1).
Proof.
  induction l1 as [|p l1 IH]; intros Hx; simpl.
  - now rewrite String.eqb_refl.
  - apply not_elem_of_cons in Hx as [Hne Hx].
    destruct (String.eqb_spec p x) as [->|_]; [congruence|].
    now rewrite IH.
Qed.

Lemma slice_middle {A} (l1 l2 l3 : list A) :
  Py.slice (length l1) (length l1 + length l2) (l1 ++ l2 ++ l3) = l2.
Proof.
  unfold Py.slice.
  replace (length l1 + length l2 - length l1) with (length l2) by lia.
  rewrite drop_app_length. apply take_app_length.
Qed.

(** [needle in hay] holds exactly when [hay] splits around a copy of [needle]. *)
Lemma prefix_app (p s : string) :
  String.prefix p s = true <-> exists b, s = p +:+ b.
Proof.
  revert s. induction p as [|c p IH]; intros s.
  - split; [intros _; now exists s|intros _; now destruct s].
  - destruct s as [|d s]; simpl.
    + split; [discriminate|intros [b Hb]; discriminate].
    + destruct (ascii_dec c d) as [->|Hcd].
      * rewrite IH. split; intros [b Hb]; exists b.
        -- now rewrite Hb.
        -- now injection Hb.
      * split; [discriminate|]. intros [b Hb]. injection Hb as Hd _. congruence.
Qed.

Lemma contains_spec (needle hay : string) :
  Py.contains needle hay = true <-> exists a b, hay = a +:+ needle +:+ b.
Proof.
  induction hay as [|c hay IH].
  - cbn [Py.contains]. destruct (String.prefix needle EmptyString) eqn:Hp.
    + apply prefix_app in Hp as [b Hb]. split; [|easy].
      intros _. now exists EmptyString, b.
    + split; [discriminate|]. intros (a & b & Hab).
      destruct a; [|discriminate]. simpl in Hab.
      assert (String.prefix needle EmptyString = true) as Hp'
        by (apply prefix_app; now exists b).
      congruence.
  - cbn [Py.contains]. destruct (String.prefix needle (String c hay)) eqn:Hp.
    + apply prefix_app in Hp as [b Hb]. split; [|easy].
      intros _. now exists EmptyString, b.
    + rewrite IH. split.
      * intros (a & b & ->). now exists (String c a), b.
      * intros (a & b & Hab). destruct a as [|d a].
        -- simpl in Hab.
           assert (String.prefix needle (String c hay) = true) as Hp'
             by (apply prefix_app; now exists b).
           congruence.
        -- injection Hab as -> ->. now exists a, b.
Qed.

(** ** Job Name Parser: properties *)

Lemma upgrade_job_name_parts (plan node hash : string) :
  Py.split dash (upgrade_job_name plan node hash)
  = ["apply"] ++ tokens plan ++ ["on"] ++ tokens node ++ ["with"] ++ tokens hash.
Proof.
  unfold upgrade_job_name, tokens.
  change ("apply-" +:+ plan +:+ "-on-" +:+ node +:+ "-with-" +:+ hash)
    with ("apply" +:+ String dash (plan +:+ String dash
            ("on" +:+ String dash (node +:+ String dash
               ("with" +:+ String dash hash))))).
  now rewrite !split_app.
Qed.

(** C4. For every job name [apply-<plan>-on-<node>-with-<hash>] in which
    neither [<plan>] nor [<node>] has [on] or [with] among its
    hyphen-delimited tokens, the parser returns exactly [(<node>, <plan>)].
    Non-emptiness of the three parts is not needed for this. *)
Theorem parse_recovers_plan_and_node (plan node hash : string) :
  "on" ∉ tokens plan -> "with" ∉ tokens plan ->
  "on" ∉ tokens node -> "with" ∉ tokens node ->
  get_node_info_from_job_name (upgrade_job_name plan node hash) = Some (node, plan).
Proof.
  intros Hop Hwp Hon Hwn. unfold get_node_info_from_job_name.
  rewrite upgrade_job_name_parts.
  assert (Nat.ltb (length (["apply"] ++ tokens plan ++ ["on"] ++ tokens node
                             ++ ["with"] ++ tokens hash)) 4 = false) as ->.
  { apply Nat.ltb_ge. rewrite !length_app. simpl.
    pose proof (split_nonempty dash plan) as Hp. unfold tokens.
    destruct (Py.split dash plan); [congruence|]. simpl. lia. }
  assert (Py.index "on" (["apply"] ++ tokens plan ++ ["on"] ++ tokens node
                           ++ ["with"] ++ tokens hash)
          = Some (length (["apply"] ++ tokens plan))) as ->.
  { rewrite (app_assoc ["apply"]). apply index_app_first.
    rewrite not_elem_of_app. split; [|assumption].
    rewrite not_elem_of_cons. split; [discriminate|apply not_elem_of_nil]. }
  assert (Py.index "with" (["apply"] ++ tokens plan ++ ["on"] ++ tokens node
                             ++ ["with"] ++ tokens hash)
          = Some (length (["apply"] ++ tokens plan ++ ["on"] ++ tokens node))) as ->.
  { replace (["apply"] ++ tokens plan ++ ["on"] ++ tokens node ++ ["with"] ++ tokens hash)
      with ((["apply"] ++ tokens plan ++ ["on"] ++ tokens node) ++ "with" :: tokens hash)
      by (now rewrite <- !app_assoc).
    apply index_app_first.
    rewrite !not_elem_of_app, !not_elem_of_cons.
    repeat split; try assumption; try discriminate; apply not_elem_of_nil. }
  f_equal. f_equal.
  - replace (length (["apply"] ++ tokens plan) + 1)
      with (length (["apply"] ++ tokens plan ++ ["on"])) by (rewrite !length_app; simpl; lia).
    replace (length (["apply"] ++ tokens plan ++ ["on"] ++ tokens node))
      with (length (["apply"] ++ tokens plan ++ ["on"]) + length (tokens node))
      by (rewrite !length_app; simpl; lia).
    replace (["apply"] ++ tokens plan ++ ["on"] ++ tokens node ++ ["with"] ++ tokens hash)
      with ((["apply"] ++ tokens plan ++ ["on"]) ++ tokens node ++ (["with"] ++ tokens hash))
      by (now rewrite <- !app_assoc).
    rewrite slice_middle. apply (join_split dash).
  - replace (length (["apply"] ++ tokens plan))
      with (length ["apply"] + length (tokens plan)) by (now rewrite length_app).
    change 1 with (length ["apply"]) at 1.
    rewrite slice_middle. apply (join_split dash).
Qed.

Lemma parse_recovers_plan_and_node_witness :
  get_node_info_from_job_name (upgrade_job_name "k3s-server" "worker-2" "3f9a-on-x")
  = Some ("worker-2", "k3s-server").
Proof.
  apply (parse_recovers_plan_and_node "k3s-server" "worker-2" "3f9a-on-x");
    unfold tokens; simpl; rewrite !not_elem_of_cons;
    repeat split; try discriminate; apply not_elem_of_nil.
Defined.

(** C9. The documented example parses to plan [k3s-master-plan] and node
    [node-1] and classifies as "Master". The classification is "Master"
    exactly for the plan names that contain [master], and "Worker" exactly
    for those that do not. *)
Theorem example_job_name_is_master :
  get_node_info_from_job_name "apply-k3s-master-plan-on-node-1-with-ab12cd"
    = Some ("node-1", "k3s-master-plan")
  /\ node_type "k3s-master-plan" = "Master"
  /\ (forall p : string,
        node_type p = "Master" <-> exists a b : string, p = a +:+ "master" +:+ b)
  /\ (forall p : string,
        node_type p = "Worker" <-> ~ exists a b : string, p = a +:+ "master" +:+ b).
Proof.
  split; [reflexivity|]. split; [reflexivity|].
  split; intros p; unfold node_type; rewrite <- contains_spec;
    destruct (Py.contains "master" p); split; intros H;
    try reflexivity; try discriminate; congruence.
Qed.

(** ** The duration in seconds *)

Lemma div_half_even_bounds (a b : Z) :
  (0 < b)%Z ->
  (a / b <= div_half_even a b <= a / b + 1)%Z
  /\ (div_half_even a b = a / b + 1 -> b <= 2 * (a mod b))%Z.
Proof.
  intros Hb. unfold div_half_even. cbv zeta.
  pose proof (Z.mod_pos_bound a b Hb) as Hr.
  destruct (Z.ltb_spec (2 * (a mod b)) b); [lia|].
  destruct (Z.ltb_spec b (2 * (a mod b))); [lia|].
  destruct (Z.even (a / b)); lia.
Qed.

Lemma ratio_log2_le (n d : Z) : (ratio_log2 n d <= Z.log2 n - Z.log2 d)%Z.
Proof.
  unfold ratio_log2. cbv zeta.
  destruct (0 <=? Z.log2 n - Z.log2 d)%Z;
    [destruct (d * 2 ^ _ <=? n)%Z|destruct (d <=? n * 2 ^ _)%Z]; lia.
Qed.

(** Below 2^53 microseconds the float keeps enough of the fraction: its
    integer part is the whole seconds of the exact quotient. *)
Lemma int_of_true_divide_exact (n : Z) :
  (0 < n < 2 ^ 53)%Z ->
  int_of_float (true_divide n 1000000) = (n / 1000000)%Z.
Proof.
  intros [Hpos Hlt]. unfold true_divide, int_of_float.
  pose proof (ratio_log2_le n 1000000) as Hle.
  assert (Z.log2 n < 53)%Z as Hlog by (apply Z.log2_lt_pow2; lia).
  change (Z.log2 1000000) with 19%Z in Hle.
  set (e := (ratio_log2 n 1000000 - 52)%Z) in *.
  assert (e <= -19)%Z as He by lia.
  destruct (Z.leb_spec 0 e) as [|_]; [lia|].
  assert (2 ^ 19 <= 2 ^ (- e))%Z as Hpow by (apply Z.pow_le_mono_r; lia).
  change (2 ^ 19)%Z with 524288%Z in Hpow.
  set (P := (2 ^ (- e))%Z) in *.
  destruct (div_half_even_bounds (n * P)%Z 1000000%Z ltac:(lia)) as [[Hlo Hhi] Hup].
  set (m := div_half_even (n * P) 1000000) in *.
  pose proof (Z.div_mod n 1000000 ltac:(lia)) as Hn.
  pose proof (Z.mod_pos_bound n 1000000 ltac:(lia)) as Hnr.
  pose proof (Z.div_mod (n * P) 1000000 ltac:(lia)) as Ha.
  pose proof (Z.mod_pos_bound (n * P) 1000000 ltac:(lia)) as Har.
  set (k := (n / 1000000)%Z) in *. set (r0 := (n mod 1000000)%Z) in *.
  set (q := ((n * P) / 1000000)%Z) in *. set (r := ((n * P) mod 1000000)%Z) in *.
  symmetry. apply (Z.div_unique m P k (m - P * k)%Z); [|lia].
  left. split.
  - assert (k * P <= q)%Z by nia. nia.
  - destruct (Z.eq_dec m (q + 1)%Z) as [Heq|Hne].
    + specialize (Hup Heq). nia.
    + assert (m = q)%Z by lia. nia.
Qed.

Lemma delta_seconds_exact (a b : datetime) :
  (Z.abs (a - b) < 2 ^ 53)%Z -> delta_seconds a b = Z.quot (a - b) 1000000.
Proof.
  intros Hbound. unfold delta_seconds.
  destruct (Z.lt_trichotomy (a - b) 0) as [Hneg|[Hzero|Hpos]].
  - rewrite Z.sgn_neg, Z.abs_neq by lia.
    rewrite int_of_true_divide_exact by lia.
    replace (a - b)%Z with (- (- (a - b)))%Z at 2 by lia.
    rewrite Z.quot_opp_l by lia. rewrite Z.quot_div_nonneg by lia. lia.
  - rewrite Hzero. reflexivity.
  - rewrite Z.sgn_pos, Z.abs_eq by lia.
    rewrite int_of_true_divide_exact by lia.
    rewrite Z.quot_div_nonneg by lia. lia.
Qed.

(** Far beyond that range the float rounds up across a whole second: one
    microsecond short of 253402300800 seconds prints as 253402300800. *)
Example delta_seconds_rounds_up :
  delta_seconds 253402300799999999%Z 0%Z = 253402300800%Z
  /\ Z.quot (253402300799999999 - 0) 1000000 = 253402300799%Z.
Proof. split; vm_compute; reflexivity. Qed.

(** ** The effect log *)

Lemma notifications_app (out1 out2 : list Effect) :
  notifications (out1 ++ out2) = notifications out1 ++ notifications out2.
Proof.
  induction out1 as [|e out1 IH]; [reflexivity|].
  destruct e; simpl; now rewrite ?IH.
Qed.

Lemma transitions_app (out1 out2 : list Effect) :
  transitions (out1 ++ out2) = transitions out1 ++ transitions out2.
Proof. unfold transitions. now rewrite notifications_app, omap_app. Qed.

Lemma transition_of_started (plan_name : string) :
  transition_of_title (node_type plan_name +:+ " Upgrade Started") = Some Started.
Proof. unfold node_type. now destruct (Py.contains "master" plan_name). Qed.

Lemma transition_of_completed (plan_name : string) :
  transition_of_title (node_type plan_name +:+ " Upgrade Completed") = Some Completed.
Proof. unfold node_type. now destruct (Py.contains "master" plan_name). Qed.

Lemma transition_of_failed (plan_name : string) :
  transition_of_title (node_type plan_name +:+ " Upgrade Failed") = Some Failed.
Proof. unfold node_type. now destruct (Py.contains "master" plan_name). Qed.

Lemma truthy_true (s : string) : Py.truthy s = true <-> s <> EmptyString.
Proof.
  unfold Py.truthy. destruct (String.eqb_spec s EmptyString); simpl; split; congruence.
Qed.

(** ** Notifier and Version Lookup: properties *)

Section Leaves.
Context {W : Type} {cluster : Cluster W}.
Variable cfg : Config.

Lemma send_ntfy_notification_run (title message priority : string) (s : St W) :
  send_ntfy_notification cfg title message priority s =
    if negb (Py.truthy (NTFY_URL cfg)) then
      (Ok tt, s,
       [Notification title message priority;
        Print ("No ntfy URL configured, skipping notification: " +:+ title)])
    else
      let request := ntfy_request cfg title message priority in
      (Ok tt, Build_St (fst (requests_post (world s) request)) (job_states s),
       [Notification title message priority;
        HttpPost request;
        Print (ntfy_log_line title (snd (requests_post (world s) request)))]).
Proof.
  unfold send_ntfy_notification, mbind, M_bind, bind, emit, print, try_except, post, ask.
  fold (ntfy_request cfg title message priority).
  destruct (negb (Py.truthy (NTFY_URL cfg))); [now destruct s|].
  cbn. destruct (requests_post (world s) (ntfy_request cfg title message priority))
    as [w [response|e]]; cbn; [|reflexivity].
  destruct (Z.eqb (status_code response) 200); reflexivity.
Qed.

Lemma send_ntfy_notification_spec (title message priority : string) (s : St W) :
  exists w out,
    send_ntfy_notification cfg title message priority s
      = (Ok tt, Build_St w (job_states s), Notification title message priority :: out)
    /\ notifications out = [].
Proof.
  rewrite send_ntfy_notification_run.
  destruct (negb (Py.truthy (NTFY_URL cfg))); destruct s; cbn; eauto.
Qed.

Lemma get_k3s_version_from_node_spec (node_name : string) (s : St W) :
  exists out,
    get_k3s_version_from_node node_name s
      = (Ok (looked_up_version (world s) node_name),
         Build_St (fst (read_node (world s) node_name)) (job_states s),
         ReadNode node_name :: out)
    /\ notifications out = [].
Proof.
  unfold get_k3s_version_from_node, looked_up_version, mbind, M_bind, bind, try_except, ask,
    getattr, print, emit, raise, ret.
  destruct (read_node (world s) node_name) as [w [[[[[info|]]|]]|e]]; cbn; eauto.
Qed.

(** C7. For every title, body and priority the Notifier returns normally
    and leaves [job_states] alone. With no endpoint configured it does no
    I/O but one printed line; with an endpoint it posts once and prints one
    line, whether the endpoint answered 200, answered something else, or the
    request raised. *)
Theorem notifier_never_raises (title message priority : string) (s : St W) :
  let '(result, s', out) := send_ntfy_notification cfg title message priority s in
  result = Ok tt
  /\ job_states s' = job_states s
  /\ if String.eqb (NTFY_URL cfg) EmptyString then
       s' = s
       /\ out = [Notification title message priority;
                 Print ("No ntfy URL configured, skipping notification: " +:+ title)]
     else
       let request := ntfy_request cfg title message priority in
       out = [Notification title message priority;
              HttpPost request;
              Print (match snd (requests_post (world s) request) with
                     | Ok response =>
                         if Z.eqb (status_code response) 200
                         then "Notification sent: " +:+ title
                         else "Failed to send notification: "
                              +:+ Py.str_int (status_code response)
                     | Raise e => "Error sending notification: " +:+ str_exn e
                     end)].
Proof.
  rewrite send_ntfy_notification_run. unfold Py.truthy.
  destruct (String.eqb (NTFY_URL cfg) EmptyString); cbn; auto.
Qed.

(** C8. For every node name the Version Lookup returns normally: the
    kubelet version of the node object when the cluster read succeeds and
    the object carries one, and the sentinel "unknown" (after one printed
    line) when the read raises or the attribute chain breaks. It performs
    exactly one cluster read and leaves [job_states] alone. *)
Theorem version_lookup_never_raises (node_name : string) (s : St W) :
  let '(result, s', out) := get_k3s_version_from_node node_name s in
  job_states s' = job_states s
  /\ match snd (read_node (world s) node_name) with
     | Ok {| node_status := Some {| node_info := Some info |} |} =>
         result = Ok (kubelet_version info) /\ out = [ReadNode node_name]
     | Ok _ =>
         result = Ok "unknown" /\ exists line, out = [ReadNode node_name; Print line]
     | Raise e =>
         result = Ok "unknown"
         /\ out = [ReadNode node_name;
                   Print ("Error getting node version for " +:+ node_name +:+ ": "
                          +:+ str_exn e)]
     end.
Proof.
  unfold get_k3s_version_from_node, mbind, M_bind, bind, try_except, ask, getattr, print,
    emit, raise, ret.
  destruct (read_node (world s) node_name) as [w [[[[[info|]]|]]|e]]; cbn; eauto 10.
Qed.
End Leaves.

(** ** Transition Tracker: properties *)

Section Tracker.
Context {W : Type} {cluster : Cluster W}.
Variable cfg : Config.

(** Past the gate of lines 80-97 the handler is the rule chain. *)
Ltac enter_rules H :=
  destruct H as (Htype & Hns & Hprefix & Hparse & Hnode & Hplan);
  unfold handle_job_event;
  rewrite Hns, Hprefix, Hparse, String.eqb_refl;
  rewrite (proj2 (truthy_true _) Hnode), (proj2 (truthy_true _) Hplan);
  assert (String.eqb (type _) "ADDED" || String.eqb (type _) "MODIFIED" = true) as ->
    by (destruct Htype as [-> | ->]; reflexivity);
  cbn [negb orb];
  unfold mbind, M_bind, bind, now, get_job_states, set_job_state, print, emit, ret.

(** After the state update every rule looks the version up, notifies and
    prints one line. *)
Ltac announce :=
  cbn iota beta;
  match goal with
  | |- context [get_k3s_version_from_node ?n ?st] =>
      destruct (get_k3s_version_from_node_spec n st) as (? & -> & ?)
  end;
  match goal with
  | |- context [send_ntfy_notification cfg ?t ?m ?p ?st] =>
      destruct (send_ntfy_notification_spec cfg t m p st) as (? & ? & -> & ?)
  end;
  cbn; eexists _, _; split; [reflexivity|];
  repeat (progress cbn [notifications] || rewrite notifications_app);
  repeat match goal with H : notifications _ = [] |- _ => rewrite H; clear H end;
  reflexivity.

Lemma handle_started (event : WatchEvent) (job : V1Job) (node_name plan_name : string)
  (s : St W) :
  Dispatched event job node_name plan_name ->
  truthy_count (active (status job)) && untracked (job_states s) (uid (metadata job)) = true ->
  exists w out,
    handle_job_event cfg event job s
      = (Ok tt, Build_St w (<[uid (metadata job) := "running"]> (job_states s)), out)
    /\ notifications out =
         [(node_type plan_name +:+ " Upgrade Started",
           started_message (node_type plan_name) node_name
             (looked_up_version (world s) node_name) plan_name (strftime_now (world s)),
           "default")].
Proof.
  intros Hd Hc1. enter_rules Hd. rewrite Hc1. announce.
Qed.

Lemma handle_completed (event : WatchEvent) (job : V1Job) (node_name plan_name : string)
  (s : St W) :
  Dispatched event job node_name plan_name ->
  truthy_count (active (status job)) && untracked (job_states s) (uid (metadata job)) = false ->
  truthy_count (succeeded (status job))
    && state_differs (job_states s) (uid (metadata job)) "succeeded" = true ->
  exists w out,
    handle_job_event cfg event job s
      = (Ok tt, Build_St w (<[uid (metadata job) := "succeeded"]> (job_states s)), out)
    /\ notifications out =
         [(node_type plan_name +:+ " Upgrade Completed",
           completed_message (node_type plan_name) node_name
             (looked_up_version (world s) node_name) plan_name (strftime_now (world s))
             (duration_field (status job)),
           "default")].
Proof.
  intros Hd Hc1 Hc2. enter_rules Hd. rewrite Hc1, Hc2. announce.
Qed.

Lemma handle_failed (event : WatchEvent) (job : V1Job) (node_name plan_name : string)
  (s : St W) :
  Dispatched event job node_name plan_name ->
  truthy_count (active (status job)) && untracked (job_states s) (uid (metadata job)) = false ->
  truthy_count (succeeded (status job))
    && state_differs (job_states s) (uid (metadata job)) "succeeded" = false ->
  truthy_count (failed (status job))
    && state_differs (job_states s) (uid (metadata job)) "failed" = true ->
  exists w out,
    handle_job_event cfg event job s
      = (Ok tt, Build_St w (<[uid (metadata job) := "failed"]> (job_states s)), out)
    /\ notifications out =
         [(node_type plan_name +:+ " Upgrade Failed",
           failed_message (node_type plan_name) node_name
             (looked_up_version (world s) node_name) plan_name (strftime_now (world s))
             (name (metadata job)),
           "high")].
Proof.
  intros Hd Hc1 Hc2 Hc3. enter_rules Hd. rewrite Hc1, Hc2, Hc3. announce.
Qed.

Lemma handle_quiet (event : WatchEvent) (job : V1Job) (node_name plan_name : string)
  (s : St W) :
  Dispatched event job node_name plan_name ->
  truthy_count (active (status job)) && untracked (job_states s) (uid (metadata job)) = false ->
  truthy_count (succeeded (status job))
    && state_differs (job_states s) (uid (metadata job)) "succeeded" = false ->
  truthy_count (failed (status job))
    && state_differs (job_states s) (uid (metadata job)) "failed" = false ->
  handle_job_event cfg event job s = (Ok tt, s, []).
Proof.
  intros Hd Hc1 Hc2 Hc3. enter_rules Hd. rewrite Hc1, Hc2, Hc3. reflexivity.
Qed.

Lemma dispatch_Some (event : WatchEvent) (job : V1Job) (node_name plan_name : string) :
  dispatch event job = Some (node_name, plan_name)
  <-> Dispatched event job node_name plan_name.
Proof.
  unfold dispatch, Dispatched. split.
  - destruct (String.eqb_spec (namespace (metadata job)) "system-upgrade") as [Hns|];
      [|discriminate].
    destruct (Py.startswith "apply-" (name (metadata job))); [|discriminate].
    destruct (get_node_info_from_job_name (name (metadata job))) as [[n p]|]; [|discriminate].
    cbn [andb]. destruct (Py.truthy n) eqn:Hn; [|discriminate].
    destruct (Py.truthy p) eqn:Hp; [|discriminate].
    apply truthy_true in Hn, Hp. cbn [andb].
    destruct (String.eqb_spec (type event) "ADDED");
      destruct (String.eqb_spec (type event) "MODIFIED"); cbn [orb];
      intros [= <- <-] || discriminate; auto 10.
  - intros (Htype & -> & -> & -> & Hn & Hp).
    apply truthy_true in Hn, Hp. rewrite Hn, Hp. cbn.
    destruct Htype as [-> | ->]; reflexivity.
Qed.

Lemma handle_undispatched (event : WatchEvent) (job : V1Job) (s : St W) :
  dispatch event job = None -> handle_job_event cfg event job s = (Ok tt, s, []).
Proof.
  unfold dispatch, handle_job_event.
  destruct (String.eqb (namespace (metadata job)) "system-upgrade"); [|reflexivity].
  destruct (Py.startswith "apply-" (name (metadata job))); [|reflexivity].
  destruct (get_node_info_from_job_name (name (metadata job))) as [[n p]|]; [|reflexivity].
  destruct (Py.truthy n); [|reflexivity].
  destruct (Py.truthy p); [|reflexivity].
  cbn [andb negb orb].
  destruct (String.eqb (type event) "ADDED" || String.eqb (type event) "MODIFIED");
    [discriminate|reflexivity].
Qed.
(** What one call does to the map and which transition it announces. *)
Inductive step (states : gmap string string) (job_uid : string)
  : gmap string string -> list Transition -> Prop :=
| step_quiet : step states job_uid states []
| step_started :
    states !! job_uid = None ->
    step states job_uid (<[job_uid := "running"]> states) [Started]
| step_completed :
    states !! job_uid <> Some "succeeded" ->
    step states job_uid (<[job_uid := "succeeded"]> states) [Completed]
| step_failed :
    states !! job_uid <> Some "failed" ->
    step states job_uid (<[job_uid := "failed"]> states) [Failed].

Lemma untracked_true (states : gmap string string) (job_uid : string) :
  untracked states job_uid = true <-> states !! job_uid = None.
Proof. unfold untracked. destruct (states !! job_uid); split; congruence. Qed.

Lemma state_differs_true (states : gmap string string) (job_uid v : string) :
  state_differs states job_uid v = true <-> states !! job_uid <> Some v.
Proof.
  unfold state_differs. destruct (states !! job_uid) as [v'|]; [|split; congruence].
  destruct (String.eqb_spec v' v); simpl; split; congruence.
Qed.

Lemma handle_step (event : WatchEvent) (job : V1Job) (s : St W) :
  exists w states out,
    handle_job_event cfg event job s = (Ok tt, Build_St w states, out)
    /\ step (job_states s) (uid (metadata job)) states (transitions out)
    /\ length (notifications out) <= 1.
Proof.
  destruct (dispatch event job) as [[node_name plan_name]|] eqn:Hd.
  - apply dispatch_Some in Hd.
    destruct (truthy_count (active (status job))
              && untracked (job_states s) (uid (metadata job))) eqn:Hc1.
    { destruct (handle_started _ _ _ _ s Hd Hc1) as (w & out & -> & Hout).
      eexists w, _, out. split; [reflexivity|]. unfold transitions. rewrite Hout.
      split; [|simpl; lia]. cbn [omap list_omap fst]. rewrite transition_of_started.
      apply step_started. apply andb_true_iff in Hc1 as [_ Hc1].
      now apply untracked_true. }
    destruct (truthy_count (succeeded (status job))
              && state_differs (job_states s) (uid (metadata job)) "succeeded") eqn:Hc2.
    { destruct (handle_completed _ _ _ _ s Hd Hc1 Hc2) as (w & out & -> & Hout).
      eexists w, _, out. split; [reflexivity|]. unfold transitions. rewrite Hout.
      split; [|simpl; lia]. cbn [omap list_omap fst]. rewrite transition_of_completed.
      apply step_completed. apply andb_true_iff in Hc2 as [_ Hc2].
      now apply state_differs_true. }
    destruct (truthy_count (failed (status job))
              && state_differs (job_states s) (uid (metadata job)) "failed") eqn:Hc3.
    { destruct (handle_failed _ _ _ _ s Hd Hc1 Hc2 Hc3) as (w & out & -> & Hout).
      eexists w, _, out. split; [reflexivity|]. unfold transitions. rewrite Hout.
      split; [|simpl; lia]. cbn [omap list_omap fst]. rewrite transition_of_failed.
      apply step_failed. apply andb_true_iff in Hc3 as [_ Hc3].
      now apply state_differs_true. }
    rewrite (handle_quiet _ _ _ _ s Hd Hc1 Hc2 Hc3).
    exists (world s), (job_states s), []. destruct s. repeat split; [constructor|simpl; lia].
  - rewrite (handle_undispatched _ _ s Hd).
    exists (world s), (job_states s), []. destruct s. repeat split; [constructor|simpl; lia].
Qed.
(** C10. A watch event whose type is neither ADDED nor MODIFIED (a DELETED
    event, say) is handled without any effect: the state, and with it the
    job-state map, is unchanged, nothing is printed or sent, and the call
    returns normally, whatever the job's namespace, name and status are. *)
Theorem other_event_types_are_ignored (event : WatchEvent) (job : V1Job) (s : St W) :
  type event <> "ADDED" -> type event <> "MODIFIED" ->
  handle_job_event cfg event job s = (Ok tt, s, []).
Proof.
  intros Hadded Hmodified. apply handle_undispatched.
  destruct (dispatch event job) as [[node_name plan_name]|] eqn:Hd; [|reflexivity].
  apply dispatch_Some in Hd. destruct Hd as ([Htype|Htype] & _); contradiction.
Qed.

(** C3, amended. For every dispatched call whose status has [active] set
    and whose identity is absent from [job_states] (an identity seeded as
    ['initialized'] is present), the tracker marks the identity ['running']
    and announces exactly one notification, the Started one. *)
Theorem active_untracked_job_starts (event : WatchEvent) (job : V1Job)
  (node_name plan_name : string) (s : St W) :
  Dispatched event job node_name plan_name ->
  truthy_count (active (status job)) = true ->
  job_states s !! uid (metadata job) = None ->
  exists s' out,
    handle_job_event cfg event job s = (Ok tt, s', out)
    /\ job_states s' = <[uid (metadata job) := "running"]> (job_states s)
    /\ job_states s' !! uid (metadata job) = Some "running"
    /\ notifications out =
         [(node_type plan_name +:+ " Upgrade Started",
           started_message (node_type plan_name) node_name
             (looked_up_version (world s) node_name) plan_name (strftime_now (world s)),
           "default")]
    /\ transitions out = [Started].
Proof.
  intros Hd Hactive Hnew.
  destruct (handle_started _ _ _ _ s Hd) as (w & out & Hrun & Hout).
  { rewrite Hactive. now apply untracked_true. }
  eexists _, out. split; [exact Hrun|]. cbn [job_states].
  split; [reflexivity|]. split; [apply lookup_insert_eq|]. split; [exact Hout|].
  unfold transitions. rewrite Hout. cbn [omap list_omap fst].
  now rewrite transition_of_started.
Qed.

(** C6. For every dispatched call on an identity tracked as ['succeeded']
    whose status has a failed count, whatever its succeeded count, the
    tracker marks the identity ['failed'] and announces exactly one
    notification, the Failed one, with high priority. *)
Theorem failed_after_succeeded_is_reported (event : WatchEvent) (job : V1Job)
  (node_name plan_name : string) (s : St W) :
  Dispatched event job node_name plan_name ->
  job_states s !! uid (metadata job) = Some "succeeded" ->
  truthy_count (failed (status job)) = true ->
  exists s' out,
    handle_job_event cfg event job s = (Ok tt, s', out)
    /\ job_states s' = <[uid (metadata job) := "failed"]> (job_states s)
    /\ job_states s' !! uid (metadata job) = Some "failed"
    /\ notifications out =
         [(node_type plan_name +:+ " Upgrade Failed",
           failed_message (node_type plan_name) node_name
             (looked_up_version (world s) node_name) plan_name (strftime_now (world s))
             (name (metadata job)),
           "high")]
    /\ transitions out = [Failed].
Proof.
  intros Hd Hstate Hfailed.
  destruct (handle_failed _ _ _ _ s Hd) as (w & out & Hrun & Hout).
  - unfold untracked. rewrite Hstate. apply andb_false_r.
  - unfold state_differs. rewrite Hstate. apply andb_false_r.
  - unfold state_differs. rewrite Hstate, Hfailed. reflexivity.
  - eexists _, out. split; [exact Hrun|]. cbn [job_states].
    split; [reflexivity|]. split; [apply lookup_insert_eq|]. split; [exact Hout|].
    unfold transitions. rewrite Hout. cbn [omap list_omap fst].
    now rewrite transition_of_failed.
Qed.

(** C5. For an identity absent from [job_states], a dispatched call with
    [active] set followed by a dispatched call with a succeeded count
    announces exactly two notifications, Started and then Completed, in that
    order, and leaves the identity ['succeeded']. The Completed body is the
    five lines of the message followed by the duration field. When the
    second status carries both times the field is the line
    [    ⚡ **Duration:** <n>s], where [<n>] is what
    [int((completion_time - start_time).total_seconds())] prints; while the
    two times are less than 2^53 microseconds apart, [<n>] is the difference
    cut to whole seconds. When a time is missing the field is empty. *)
Theorem active_then_succeeded (event1 event2 : WatchEvent) (job1 job2 : V1Job)
  (node1 plan1 node2 plan2 : string) (s : St W) :
  Dispatched event1 job1 node1 plan1 ->
  Dispatched event2 job2 node2 plan2 ->
  uid (metadata job2) = uid (metadata job1) ->
  job_states s !! uid (metadata job1) = None ->
  truthy_count (active (status job1)) = true ->
  truthy_count (succeeded (status job2)) = true ->
  exists s1 out1 s2 out2 duration,
    handle_job_event cfg event1 job1 s = (Ok tt, s1, out1)
    /\ handle_job_event cfg event2 job2 s1 = (Ok tt, s2, out2)
    /\ notifications (out1 ++ out2) =
         [(node_type plan1 +:+ " Upgrade Started",
           "🚀 **" +:+ node_type plan1 +:+ " Upgrade Started**" +:+ nl +:+
           "📍 **Node:** " +:+ node1 +:+ nl +:+
           "📊 **Current Version:** " +:+ looked_up_version (world s) node1 +:+ nl +:+
           "📋 **Plan:** " +:+ plan1 +:+ nl +:+
           "⏰ **Started:** " +:+ strftime_now (world s),
           "default");
          (node_type plan2 +:+ " Upgrade Completed",
           "✅ **" +:+ node_type plan2 +:+ " Upgrade Completed**" +:+ nl +:+
           "📍 **Node:** " +:+ node2 +:+ nl +:+
           "🎉 **New Version:** " +:+ looked_up_version (world s1) node2 +:+ nl +:+
           "📋 **Plan:** " +:+ plan2 +:+ nl +:+
           "⏰ **Completed:** " +:+ strftime_now (world s1) +:+ duration,
           "default")]
    /\ transitions (out1 ++ out2) = [Started; Completed]
    /\ job_states s2 !! uid (metadata job1) = Some "succeeded"
    /\ match completion_time (status job2), start_time (status job2) with
       | Some finished, Some begun =>
           duration = nl +:+ "    ⚡ **Duration:** "
                      +:+ Py.str_int (delta_seconds finished begun) +:+ "s"
           /\ ((Z.abs (finished - begun) < 2 ^ 53)%Z ->
               delta_seconds finished begun = Z.quot (finished - begun) 1000000)
       | _, _ => duration = EmptyString
       end.
Proof.
  intros Hd1 Hd2 Huid Hnew Hactive Hsucceeded.
  destruct (handle_started _ _ _ _ s Hd1) as (w1 & out1 & Hrun1 & Hout1).
  { rewrite Hactive. now apply untracked_true. }
  set (s1 := Build_St w1 (<[uid (metadata job1) := "running"]> (job_states s))) in *.
  assert (job_states s1 !! uid (metadata job2) = Some "running") as Hrunning
    by (rewrite Huid; apply lookup_insert_eq).
  destruct (handle_completed _ _ _ _ s1 Hd2) as (w2 & out2 & Hrun2 & Hout2).
  { unfold untracked. rewrite Hrunning. apply andb_false_r. }
  { unfold state_differs. rewrite Hrunning, Hsucceeded. reflexivity. }
  eexists s1, out1, _, out2, (duration_field (status job2)).
  split; [exact Hrun1|]. split; [exact Hrun2|].
  split; [now rewrite notifications_app, Hout1, Hout2|].
  split.
  { unfold transitions. rewrite notifications_app, Hout1, Hout2.
    cbn [app omap list_omap fst].
    now rewrite transition_of_started, transition_of_completed. }
  split; [cbn [job_states]; rewrite <- Huid; apply lookup_insert_eq|].
  unfold duration_field.
  destruct (completion_time (status job2)) as [finished|]; [|reflexivity].
  destruct (start_time (status job2)) as [begun|]; [|reflexivity].
  split; [reflexivity|apply delta_seconds_exact].
Qed.
Lemma step_frame (states states' : gmap string string) (job_uid other : string)
  (ts : list Transition) :
  step states job_uid states' ts -> job_uid <> other -> states' !! other = states !! other.
Proof.
  intros Hstep Hne. destruct Hstep; [reflexivity|..]; now apply lookup_insert_ne.
Qed.

Lemma transitions_of_invariant (job_uid : string) (calls : list (WatchEvent * V1Job))
  (s : St W) :
  (job_states s !! job_uid <> None -> Started ∉ transitions_of cfg job_uid calls s)
  /\ count_occ Transition_eq_dec (transitions_of cfg job_uid calls s) Started <= 1
  /\ alternating (transitions_of cfg job_uid calls s)
  /\ (job_states s !! job_uid = Some "succeeded" ->
      head (transitions_of cfg job_uid calls s) <> Some Completed)
  /\ (job_states s !! job_uid = Some "failed" ->
      head (transitions_of cfg job_uid calls s) <> Some Failed).
Proof.
  revert s. induction calls as [|[event job] rest IH]; intros s; cbn [transitions_of].
  { repeat split; simpl; try lia; try discriminate. intros _. apply not_elem_of_nil. }
  destruct (handle_step event job s) as (w & states & out & -> & Hstep & _).
  specialize (IH (Build_St w states)). cbn [job_states] in IH.
  destruct IH as (IHnew & IHcount & IHalt & IHs & IHf).
  destruct (String.eqb_spec (uid (metadata job)) job_uid) as [Heq|Hne].
  2:{ rewrite (step_frame _ _ _ job_uid _ Hstep Hne) in *. cbn [app]. auto. }
  rewrite Heq in Hstep. clear Heq.
  remember (transitions out) as announced eqn:Hann. clear Hann.
  destruct Hstep as [|Hnew|Hnot|Hnot]; cbn [app].
  - auto.
  - rewrite lookup_insert_eq in *.
    assert (Started ∉ transitions_of cfg job_uid rest (Build_St w (<[job_uid:="running"]> (job_states s))))
      as Hfresh by (apply IHnew; discriminate).
    split; [congruence|]. split.
    { cbn [count_occ]. destruct (Transition_eq_dec Started Started); [|congruence].
      rewrite (proj1 (count_occ_not_In _ _ _)); [lia|].
      now rewrite <- list_elem_of_In. }
    split; [|split; [congruence|congruence]].
    destruct (transitions_of cfg job_uid rest _) as [|b ts] eqn:Hts; [exact I|].
    split; [|exact IHalt]. intros <-. apply Hfresh. apply list_elem_of_here.
  - rewrite lookup_insert_eq in *.
    assert (Started ∉ transitions_of cfg job_uid rest (Build_St w (<[job_uid:="succeeded"]> (job_states s))))
      as Hfresh by (apply IHnew; discriminate).
    split; [intros _; rewrite not_elem_of_cons; split; [discriminate|exact Hfresh]|].
    split; [cbn [count_occ]; destruct (Transition_eq_dec Completed Started);
            [discriminate|exact IHcount]|].
    split; [|split; [congruence|discriminate]].
    destruct (transitions_of cfg job_uid rest _) as [|b ts] eqn:Hts; [exact I|].
    split; [|exact IHalt]. intros <-. now apply IHs.
  - rewrite lookup_insert_eq in *.
    assert (Started ∉ transitions_of cfg job_uid rest (Build_St w (<[job_uid:="failed"]> (job_states s))))
      as Hfresh by (apply IHnew; discriminate).
    split; [intros _; rewrite not_elem_of_cons; split; [discriminate|exact Hfresh]|].
    split; [cbn [count_occ]; destruct (Transition_eq_dec Failed Started);
            [discriminate|exact IHcount]|].
    split; [|split; [discriminate|congruence]].
    destruct (transitions_of cfg job_uid rest _) as [|b ts] eqn:Hts; [exact I|].
    split; [|exact IHalt]. intros <-. now apply IHf.
Qed.

Lemma run_calls_terminal (job_uid : string) (calls : list (WatchEvent * V1Job)) (s : St W) :
  terminal (job_states s !! job_uid) ->
  terminal (job_states (run_calls cfg calls s) !! job_uid).
Proof.
  revert s. induction calls as [|[event job] rest IH]; intros s Hterm; cbn [run_calls];
    [exact Hterm|].
  destruct (handle_step event job s) as (w & states & out & -> & Hstep & _).
  apply IH. cbn [job_states].
  destruct (decide (uid (metadata job) = job_uid)) as [Heq|Hne].
  2:{ now rewrite (step_frame _ _ _ job_uid _ Hstep Hne). }
  rewrite Heq in Hstep. unfold terminal in *.
  destruct Hstep as [|Hnew|_|_]; rewrite ?lookup_insert_eq; auto.
  rewrite Hnew in Hterm. destruct Hterm; discriminate.
Qed.

(** C2, amended. For every job identity and every sequence of calls of
    [handle_job_event]: a single call announces at most one notification;
    over the whole sequence the identity's Started is announced at most
    once; no transition of the identity is announced twice in a row, so
    Completed and Failed can each recur only with the other in between; and
    an identity tracked as ['succeeded'] or ['failed'] stays tracked as one
    of the two. *)
Theorem transitions_alternate (job_uid : string) (calls : list (WatchEvent * V1Job))
  (s : St W) :
  (forall event job s0,
      length (notifications (snd (handle_job_event cfg event job s0))) <= 1)
  /\ count_occ Transition_eq_dec (transitions_of cfg job_uid calls s) Started <= 1
  /\ alternating (transitions_of cfg job_uid calls s)
  /\ (terminal (job_states s !! job_uid) ->
      terminal (job_states (run_calls cfg calls s) !! job_uid)).
Proof.
  split.
  { intros event job s0.
    destruct (handle_step event job s0) as (w & states & out & -> & _ & Hlen). exact Hlen. }
  pose proof (transitions_of_invariant job_uid calls s) as (_ & Hcount & Halt & _).
  split; [exact Hcount|]. split; [exact Halt|]. apply run_calls_terminal.
Qed.
End Tracker.

(** ** Event Loop: properties *)

Section Loop.
Context {W : Type} {cluster : Cluster W}.
Variable cfg : Config.

Lemma try_except_total {A} (body : M A) (handler : exn -> M A) (s : St W) :
  (forall e s0, exists a s1 out, handler e s0 = (Ok a, s1, out)) ->
  exists a s1 out, try_except body handler s = (Ok a, s1, out).
Proof.
  intros Hhandler. unfold try_except.
  destruct (body s) as [[[a|e] s1] out1]; [eauto|].
  destruct (Hhandler e s1) as (a & s2 & out2 & ->). eauto.
Qed.

(** Whatever the listing and the stream do, [main] returns normally once
    the stream has ended or raised: there is no path back to the seeding. *)
Lemma main_always_returns (s : St W) :
  exists s' out, main cfg s = (Ok tt, s', out).
Proof.
  unfold main. unfold mbind at 1 2 3, M_bind, bind at 1 2 3, print, emit.
  assert (exists s1 out1,
             (if Py.truthy (NTFY_URL cfg)
              then started_at ← now;
                   send_ntfy_notification cfg "Monitor Started"
                     ("📡 K3s upgrade monitoring service started at " +:+ started_at)
                     "default"
              else ret tt) s = (Ok tt, s1, out1)) as (s1 & out1 & ->).
  { destruct (Py.truthy (NTFY_URL cfg)); [|unfold ret; eauto].
    unfold mbind, M_bind, bind, now.
    destruct (send_ntfy_notification_spec cfg "Monitor Started"
                ("📡 K3s upgrade monitoring service started at " +:+ strftime_now (world s))
                "default" s) as (w & out & -> & _).
    eauto. }
  match goal with
  | |- context [try_except ?body ?handler s1] =>
      destruct (try_except_total body handler s1) as ([] & s2 & out2 & ->); [|eauto]
  end.
  intros e s0. unfold mbind, M_bind, bind, print, emit, sleep.
  destruct (Py.truthy (NTFY_URL cfg)); [|unfold ret; eauto].
  destruct (send_ntfy_notification_spec cfg "Monitor Error"
              ("⚠️ K3s upgrade monitor encountered an error: " +:+ str_exn e) "high" s0)
    as (w & out & -> & _).
  eauto.
Qed.
End Loop.

(** ** Concrete runs *)

Lemma other_event_types_are_ignored_witness :
  handle_job_event (cluster := quiet_world) cfg_ntfy
    {| type := "DELETED"; object := upgrade_job "uid-1" status_failed |}
    (upgrade_job "uid-1" status_failed) (state_of ∅)
  = (Ok tt, state_of ∅, []).
Proof.
  apply (@other_event_types_are_ignored unit quiet_world cfg_ntfy); discriminate.
Defined.

Lemma upgrade_job_dispatched (job_uid : string) (st : V1JobStatus) :
  Dispatched (modified (upgrade_job job_uid st)) (upgrade_job job_uid st)
    "node-1" "k3s-master-plan".
Proof. unfold Dispatched. cbn. repeat split; auto; discriminate. Qed.

(** C3 as stated fails: an identity seeded as ['initialized'] is neither
    running nor terminal, yet a dispatched call with [active] set announces
    nothing and leaves it ['initialized']. *)
Lemma initialized_active_job_is_not_started :
  job_states (state_of {[ "uid-1" := "initialized" ]}) !! "uid-1" = Some "initialized"
  /\ truthy_count (active (status (upgrade_job "uid-1" status_active))) = true
  /\ Dispatched (modified (upgrade_job "uid-1" status_active))
       (upgrade_job "uid-1" status_active) "node-1" "k3s-master-plan"
  /\ handle_job_event (cluster := quiet_world) cfg_ntfy
       (modified (upgrade_job "uid-1" status_active))
       (upgrade_job "uid-1" status_active)
       (state_of {[ "uid-1" := "initialized" ]})
     = (Ok tt, state_of {[ "uid-1" := "initialized" ]}, []).
Proof.
  split; [reflexivity|]. split; [reflexivity|].
  split; [apply upgrade_job_dispatched|]. vm_compute. reflexivity.
Qed.

Lemma active_untracked_job_starts_witness :
  exists s' out,
    handle_job_event (cluster := quiet_world) cfg_ntfy
      (modified (upgrade_job "uid-1" status_active))
      (upgrade_job "uid-1" status_active) (state_of ∅)
    = (Ok tt, s', out)
    /\ job_states s' = <[ "uid-1" := "running" ]> ∅
    /\ job_states s' !! "uid-1" = Some "running"
    /\ notifications out =
         [("Master Upgrade Started",
           started_message "Master" "node-1" "v1.30.2+k3s1" "k3s-master-plan"
             "2024-05-01 12:00:00",
           "default")]
    /\ transitions out = [Started].
Proof.
  apply (@active_untracked_job_starts unit quiet_world cfg_ntfy
           (modified (upgrade_job "uid-1" status_active))
           (upgrade_job "uid-1" status_active) "node-1" "k3s-master-plan" (state_of ∅)).
  - apply upgrade_job_dispatched.
  - reflexivity.
  - reflexivity.
Defined.

Lemma failed_after_succeeded_is_reported_witness :
  exists s' out,
    handle_job_event (cluster := quiet_world) cfg_ntfy
      (modified (upgrade_job "uid-1" status_retried))
      (upgrade_job "uid-1" status_retried) (state_of {[ "uid-1" := "succeeded" ]})
    = (Ok tt, s', out)
    /\ job_states s' = <[ "uid-1" := "failed" ]> {[ "uid-1" := "succeeded" ]}
    /\ job_states s' !! "uid-1" = Some "failed"
    /\ notifications out =
         [("Master Upgrade Failed",
           failed_message "Master" "node-1" "v1.30.2+k3s1" "k3s-master-plan"
             "2024-05-01 12:00:00" "apply-k3s-master-plan-on-node-1-with-ab12cd",
           "high")]
    /\ transitions out = [Failed].
Proof.
  exact (@failed_after_succeeded_is_reported unit quiet_world cfg_ntfy
           (modified (upgrade_job "uid-1" status_retried))
           (upgrade_job "uid-1" status_retried) "node-1" "k3s-master-plan"
           (state_of {[ "uid-1" := "succeeded" ]})
           (upgrade_job_dispatched "uid-1" status_retried) eq_refl eq_refl).
Defined.

Lemma active_then_succeeded_witness :
  exists s1 out1 s2 out2 duration,
    handle_job_event (cluster := quiet_world) cfg_ntfy
      (modified (upgrade_job "uid-1" status_active))
      (upgrade_job "uid-1" status_active) (state_of ∅)
    = (Ok tt, s1, out1)
    /\ handle_job_event (cluster := quiet_world) cfg_ntfy
         (modified (upgrade_job "uid-1" status_succeeded))
         (upgrade_job "uid-1" status_succeeded) s1
       = (Ok tt, s2, out2)
    /\ notifications (out1 ++ out2) =
         [("Master Upgrade Started",
           "🚀 **Master Upgrade Started**" +:+ nl +:+
           "📍 **Node:** node-1" +:+ nl +:+
           "📊 **Current Version:** v1.30.2+k3s1" +:+ nl +:+
           "📋 **Plan:** k3s-master-plan" +:+ nl +:+
           "⏰ **Started:** 2024-05-01 12:00:00",
           "default");
          ("Master Upgrade Completed",
           "✅ **Master Upgrade Completed**" +:+ nl +:+
           "📍 **Node:** node-1" +:+ nl +:+
           "🎉 **New Version:** v1.30.2+k3s1" +:+ nl +:+
           "📋 **Plan:** k3s-master-plan" +:+ nl +:+
           "⏰ **Completed:** 2024-05-01 12:00:00" +:+ duration,
           "default")]
    /\ transitions (out1 ++ out2) = [Started; Completed]
    /\ job_states s2 !! "uid-1" = Some "succeeded"
    /\ (duration = nl +:+ "    ⚡ **Duration:** 61s"
        /\ ((Z.abs (1714564861500000 - 1714564800000000) < 2 ^ 53)%Z ->
            delta_seconds 1714564861500000%Z 1714564800000000%Z
            = Z.quot (1714564861500000 - 1714564800000000) 1000000)).
Proof.
  exact (@active_then_succeeded unit quiet_world cfg_ntfy
           (modified (upgrade_job "uid-1" status_active))
           (modified (upgrade_job "uid-1" status_succeeded))
           (upgrade_job "uid-1" status_active)
           (upgrade_job "uid-1" status_succeeded)
           "node-1" "k3s-master-plan" "node-1" "k3s-master-plan" (state_of ∅)
           (upgrade_job_dispatched "uid-1" status_active)
           (upgrade_job_dispatched "uid-1" status_succeeded)
           eq_refl eq_refl eq_refl eq_refl).
Defined.

(** C2 as stated fails: for a job whose status carries both a succeeded
    and a failed count, three MODIFIED events announce Completed, Failed and
    Completed again, and the tracked state goes from ['succeeded'] to
    ['failed'] and back. *)
Lemma completed_is_announced_twice :
  transitions_of (cluster := quiet_world) cfg_ntfy "uid-1"
    [(modified (upgrade_job "uid-1" status_retried), upgrade_job "uid-1" status_retried);
     (modified (upgrade_job "uid-1" status_retried), upgrade_job "uid-1" status_retried);
     (modified (upgrade_job "uid-1" status_retried), upgrade_job "uid-1" status_retried)]
    (state_of ∅)
  = [Completed; Failed; Completed]
  /\ job_states
       (run_calls (cluster := quiet_world) cfg_ntfy
          [(modified (upgrade_job "uid-1" status_retried),
            upgrade_job "uid-1" status_retried)]
          (state_of ∅)) !! "uid-1" = Some "succeeded"
  /\ job_states
       (run_calls (cluster := quiet_world) cfg_ntfy
          [(modified (upgrade_job "uid-1" status_retried),
            upgrade_job "uid-1" status_retried);
           (modified (upgrade_job "uid-1" status_retried),
            upgrade_job "uid-1" status_retried)]
          (state_of ∅)) !! "uid-1" = Some "failed".
Proof. repeat split; vm_compute; reflexivity. Qed.

(** C1 at the failing input: with an endpoint configured and a watch stream
    that raises, [main] prints the error, sends the high-priority notice,
    sleeps ten seconds and returns. The job list was read once; nothing is
    listed or watched again. *)
Theorem main_returns_after_stream_error :
  main (cluster := dropped_stream_world) cfg_ntfy (state_of ∅)
  = (Ok tt, state_of ∅,
     [Print "Starting K3s upgrade monitor...";
      Print "NTFY URL: configured";
      Notification "Monitor Started"
        "📡 K3s upgrade monitoring service started at 2024-05-01 12:00:00" "default";
      HttpPost (ntfy_request cfg_ntfy "Monitor Started"
        "📡 K3s upgrade monitoring service started at 2024-05-01 12:00:00" "default");
      Print "Notification sent: Monitor Started";
      ListJobs;
      WatchStream;
      Print "Error in main loop: connection dropped";
      Notification "Monitor Error"
        "⚠️ K3s upgrade monitor encountered an error: connection dropped" "high";
      HttpPost (ntfy_request cfg_ntfy "Monitor Error"
        "⚠️ K3s upgrade monitor encountered an error: connection dropped" "high");
      Print "Notification sent: Monitor Error";
      Sleep 10]).
Proof. vm_compute. reflexivity. Qed.

(** ** Job Name Parser: failure, ambiguity and round trip *)

Lemma index_None (x : string) (l : list string) : Py.index x l = None <-> x ∉ l.
Proof.
  induction l as [|p l IH]; simpl.
  - split; [intros _; apply not_elem_of_nil|reflexivity].
  - rewrite not_elem_of_cons. destruct (String.eqb_spec p x) as [->|Hne].
    + split; [discriminate|intros [Hx _]; congruence].
    + destruct (Py.index x l); split; try discriminate; intuition congruence.
Qed.

Lemma string_app_assoc (a b c : string) : (a +:+ b) +:+ c = a +:+ (b +:+ c).
Proof.
  induction a as [|x a IH]; [reflexivity|].
  change (String x ((a +:+ b) +:+ c) = String x (a +:+ (b +:+ c))). now rewrite IH.
Qed.

(** The parser on the token list: it cuts at the first [on] and at the
    first [with]. *)
Lemma parse_parts (job_name head : string) (P N R : list string) :
  Py.split dash job_name = head :: P ++ "on" :: N ++ "with" :: R ->
  head <> "on" -> head <> "with" ->
  "on" ∉ P -> "with" ∉ P -> "with" ∉ N ->
  P <> [] \/ N <> [] \/ R <> [] ->
  get_node_info_from_job_name job_name = Some (Py.join "-" N, Py.join "-" P).
Proof.
  intros Hparts Hhon Hhwith HonP HwithP HwithN Hlen.
  unfold get_node_info_from_job_name. rewrite Hparts.
  assert (Nat.ltb (length (head :: P ++ "on" :: N ++ "with" :: R)) 4 = false) as ->.
  { apply Nat.ltb_ge. cbn [length]. rewrite !length_app. cbn [length].
    rewrite length_app. cbn [length].
    destruct P, N, R; cbn [length]; try lia. destruct Hlen as [?|[?|?]]; congruence. }
  assert (Py.index "on" (head :: P ++ "on" :: N ++ "with" :: R)
          = Some (length (head :: P))) as ->.
  { change (head :: P ++ "on" :: N ++ "with" :: R)
      with ((head :: P) ++ "on" :: N ++ "with" :: R).
    apply index_app_first. rewrite not_elem_of_cons. split; [congruence|assumption]. }
  assert (Py.index "with" (head :: P ++ "on" :: N ++ "with" :: R)
          = Some (length ((head :: P) ++ "on" :: N))) as ->.
  { replace (head :: P ++ "on" :: N ++ "with" :: R)
      with (((head :: P) ++ "on" :: N) ++ "with" :: R)
      by (now rewrite <- app_assoc).
    apply index_app_first.
    rewrite not_elem_of_app, !not_elem_of_cons. repeat split; try assumption; congruence. }
  f_equal. f_equal.
  - replace (length (head :: P) + 1) with (length ((head :: P) ++ ["on"]))
      by (rewrite length_app; reflexivity).
    replace (length ((head :: P) ++ "on" :: N))
      with (length ((head :: P) ++ ["on"]) + length N)
      by (rewrite !length_app; simpl; lia).
    replace (head :: P ++ "on" :: N ++ "with" :: R)
      with (((head :: P) ++ ["on"]) ++ N ++ "with" :: R)
      by (now rewrite <- app_assoc).
    now rewrite slice_middle.
  - change (length (head :: P)) with (length [head] + length P).
    change (head :: P ++ "on" :: N ++ "with" :: R)
      with ([head] ++ P ++ "on" :: N ++ "with" :: R).
    change 1 with (length [head]) at 1.
    now rewrite slice_middle.
Qed.

Lemma tokens_nonempty (s : string) : tokens s <> [].
Proof. apply split_nonempty. Qed.

(** X1. The parser fails exactly when the name has fewer than four
    hyphen-separated segments or lacks the segment [on] or the segment
    [with]. *)
Theorem parse_fails_iff (job_name : string) :
  get_node_info_from_job_name job_name = None
  <-> (length (tokens job_name) < 4
       \/ "on" ∉ tokens job_name
       \/ "with" ∉ tokens job_name).
Proof.
  unfold get_node_info_from_job_name, tokens.
  destruct (Nat.ltb_spec (length (Py.split dash job_name)) 4) as [Hlt|Hge].
  { split; [now left|reflexivity]. }
  destruct (Py.index "on" (Py.split dash job_name)) as [i|] eqn:Hon.
  - destruct (Py.index "with" (Py.split dash job_name)) as [j|] eqn:Hwith.
    + split; [discriminate|]. intros [Hlt|[Hno|Hno]]; [lia| |];
        apply index_None in Hno; congruence.
    + split; [|reflexivity]. intros _. right. right. now apply index_None.
  - split; [|reflexivity]. intros _. right. left. now apply index_None.
Qed.

(** X2. A node name may contain the segment [on]: when the plan has neither
    [on] nor [with] among its segments and the node has no [with], the
    parser returns exactly (node, plan). *)
Theorem parse_allows_on_in_node (plan node hash : string) :
  "on" ∉ tokens plan -> "with" ∉ tokens plan -> "with" ∉ tokens node ->
  get_node_info_from_job_name (upgrade_job_name plan node hash) = Some (node, plan).
Proof.
  intros Hop Hwp Hwn.
  rewrite (parse_parts _ "apply" (tokens plan) (tokens node) (tokens hash)); auto;
    try discriminate.
  - unfold tokens. now rewrite !(join_split dash).
  - now rewrite upgrade_job_name_parts.
  - left. apply tokens_nonempty.
Qed.

Lemma parse_allows_on_in_node_witness :
  get_node_info_from_job_name (upgrade_job_name "k3s-server" "node-on-rack-2" "ab12cd")
  = Some ("node-on-rack-2", "k3s-server").
Proof.
  apply (parse_allows_on_in_node "k3s-server" "node-on-rack-2" "ab12cd");
    unfold tokens; simpl; rewrite !not_elem_of_cons;
    repeat split; try discriminate; apply not_elem_of_nil.
Defined.

(** X3. A plan name with the segment [on] is cut there: for the plan
    [<p1>-on-<p2>] the parser returns the plan [<p1>] and the node
    [<p2>-on-<node>]. *)
Theorem parse_cuts_plan_at_first_on (p1 p2 node hash : string) :
  "on" ∉ tokens p1 -> "with" ∉ tokens p1 ->
  "with" ∉ tokens p2 -> "with" ∉ tokens node ->
  get_node_info_from_job_name (upgrade_job_name (p1 +:+ "-on-" +:+ p2) node hash)
  = Some (p2 +:+ "-on-" +:+ node, p1).
Proof.
  intros Hop Hwp Hw2 Hwn.
  assert (upgrade_job_name (p1 +:+ "-on-" +:+ p2) node hash
          = upgrade_job_name p1 (p2 +:+ "-on-" +:+ node) hash) as ->.
  { unfold upgrade_job_name. now rewrite !string_app_assoc. }
  assert (tokens (p2 +:+ "-on-" +:+ node) = tokens p2 ++ ["on"] ++ tokens node) as Hnode.
  { unfold tokens.
    change (p2 +:+ "-on-" +:+ node)
      with (p2 +:+ String dash ("on" +:+ String dash node)).
    now rewrite !split_app. }
  rewrite (parse_parts _ "apply" (tokens p1) (tokens (p2 +:+ "-on-" +:+ node))
             (tokens hash)); auto; try discriminate.
  - unfold tokens. now rewrite !(join_split dash).
  - now rewrite upgrade_job_name_parts.
  - rewrite Hnode, !not_elem_of_app, not_elem_of_cons.
    repeat split; try assumption; try discriminate. apply not_elem_of_nil.
  - left. apply tokens_nonempty.
Qed.

Lemma parse_cuts_plan_at_first_on_witness :
  get_node_info_from_job_name (upgrade_job_name "roll-on-demand" "node-1" "ab12cd")
  = Some ("demand-on-node-1", "roll").
Proof.
  apply (parse_cuts_plan_at_first_on "roll" "demand" "node-1" "ab12cd");
    unfold tokens; simpl; rewrite !not_elem_of_cons;
    repeat split; try discriminate; apply not_elem_of_nil.
Defined.

Lemma index_split (x : string) (l : list string) (i : nat) :
  Py.index x l = Some i ->
  exists l1 l2, l = l1 ++ x :: l2 /\ length l1 = i /\ x ∉ l1.
Proof.
  revert i. induction l as [|p l IH]; intros i; simpl; [discriminate|].
  destruct (String.eqb_spec p x) as [->|Hne].
  - intros [= <-]. exists [], l. repeat split. apply not_elem_of_nil.
  - destruct (Py.index x l) as [k|]; [|discriminate]. intros [= <-].
    destruct (IH k eq_refl) as (l1 & l2 & -> & Hlen & Hnot).
    exists (p :: l1), l2. repeat split; [simpl; now rewrite Hlen|].
    rewrite not_elem_of_cons. split; [congruence|assumption].
Qed.

Lemma join_app (l1 l2 : list string) :
  l1 <> [] -> l2 <> [] ->
  Py.join "-" (l1 ++ l2) = Py.join "-" l1 +:+ "-" +:+ Py.join "-" l2.
Proof.
  intros H1 H2. induction l1 as [|p l1 IH]; [congruence|].
  destruct l1 as [|q l1].
  - destruct l2; [congruence|reflexivity].
  - change (Py.join "-" ((p :: q :: l1) ++ l2))
      with (p +:+ "-" +:+ Py.join "-" ((q :: l1) ++ l2)).
    rewrite IH by discriminate.
    change (Py.join "-" (p :: q :: l1)) with (p +:+ "-" +:+ Py.join "-" (q :: l1)).
    now rewrite !string_app_assoc.
Qed.

(** X4. Every job name that passes the handler's gate has the documented
    shape around the parsed names: it is [apply-<plan>-on-<node>-with]
    followed by nothing or by [-<hash>]. *)
Theorem dispatched_name_shape (job_name node plan : string) :
  Py.startswith "apply-" job_name = true ->
  get_node_info_from_job_name job_name = Some (node, plan) ->
  node <> EmptyString -> plan <> EmptyString ->
  exists tail,
    job_name = "apply-" +:+ plan +:+ "-on-" +:+ node +:+ "-with" +:+ tail
    /\ (tail = EmptyString \/ exists hash, tail = "-" +:+ hash).
Proof.
  intros Hprefix Hparse Hnode Hplan.
  apply prefix_app in Hprefix as [rest Hrest].
  assert (Py.split dash job_name = "apply" :: Py.split dash rest) as Hparts.
  { rewrite Hrest. change ("apply-" +:+ rest) with ("apply" +:+ String dash rest).
    now rewrite split_app. }
  unfold get_node_info_from_job_name in Hparse.
  destruct (Nat.ltb (length (Py.split dash job_name)) 4); [discriminate|].
  destruct (Py.index "on" (Py.split dash job_name)) as [i|] eqn:Hon; [|discriminate].
  destruct (Py.index "with" (Py.split dash job_name)) as [j|] eqn:Hwith; [|discriminate].
  injection Hparse as Hn Hp.
  apply index_split in Hon as (l1 & l2 & Hl & Hi & _).
  apply index_split in Hwith as (m1 & R & Hm & Hj & _).
  destruct l1 as [|head P]; [rewrite Hparts in Hl; discriminate|].
  assert (head = "apply") as -> by (rewrite Hparts in Hl; now injection Hl).
  assert (Py.slice 1 i (Py.split dash job_name) = P) as HP.
  { rewrite Hl, <- Hi. change 1 with (length ["apply"]) at 1.
    change (length ("apply" :: P)) with (length ["apply"] + length P).
    change (("apply" :: P) ++ "on" :: l2) with (["apply"] ++ P ++ "on" :: l2).
    apply slice_middle. }
  assert (Py.slice (i + 1) j (Py.split dash job_name) = take (j - (i + 1)) l2) as HN.
  { unfold Py.slice. f_equal. rewrite Hl, <- Hi.
    replace (("apply" :: P) ++ "on" :: l2) with ((("apply" :: P) ++ ["on"]) ++ l2)
      by (now rewrite <- app_assoc).
    replace (length ("apply" :: P) + 1) with (length (("apply" :: P) ++ ["on"]))
      by (rewrite length_app; reflexivity).
    apply drop_app_length. }
  rewrite HP in Hp. rewrite HN in Hn.
  assert (P <> []) as HPne by (intros ->; apply Hplan; now rewrite <- Hp).
  assert (0 < j - (i + 1)) as Hgap.
  { destruct (j - (i + 1)) eqn:Hk; [|lia]. exfalso. apply Hnode. now rewrite <- Hn. }
  set (N := take (j - (i + 1)) l2) in *.
  assert (N <> []) as HNne by (intros HN0; apply Hnode; now rewrite <- Hn, HN0).
  assert (l2 = N ++ "with" :: R) as Hl2.
  { rewrite <- (take_drop (j - (i + 1)) l2) at 1. fold N. f_equal.
    assert (drop j (Py.split dash job_name) = "with" :: R) as Hdrop
      by (rewrite Hm, <- Hj; apply drop_app_length).
    rewrite Hl in Hdrop.
    replace (("apply" :: P) ++ "on" :: l2) with ((("apply" :: P) ++ ["on"]) ++ l2)
      in Hdrop by (now rewrite <- app_assoc).
    rewrite drop_app_ge in Hdrop by (rewrite length_app; simpl in *; lia).
    rewrite <- Hdrop. f_equal. rewrite length_app. simpl in *. lia. }
  assert (job_name = Py.join "-" ("apply" :: P ++ "on" :: N ++ "with" :: R)) as Hname.
  { rewrite <- (join_split dash job_name) at 1. f_equal.
    rewrite Hl, Hl2. reflexivity. }
  exists (match R with [] => EmptyString | _ => "-" +:+ Py.join "-" R end).
  split; [|destruct R; eauto].
  rewrite Hname, <- Hp, <- Hn.
  change ("apply" :: P ++ "on" :: N ++ "with" :: R)
    with (["apply"] ++ P ++ ["on"] ++ N ++ "with" :: R).
  rewrite (join_app ["apply"]) by (try discriminate; now destruct P).
  rewrite (join_app P) by (try discriminate; assumption).
  rewrite (join_app ["on"]) by (try discriminate; now destruct N).
  rewrite (join_app N) by (try discriminate; assumption).
  destruct R as [|r R]; [reflexivity|].
  change ("with" :: r :: R) with (["with"] ++ r :: R).
  rewrite (join_app ["with"]) by discriminate. reflexivity.
Qed.

Lemma dispatched_name_shape_witness :
  exists tail,
    "apply-k3s-master-plan-on-node-1-with-ab12cd"
      = "apply-" +:+ "k3s-master-plan" +:+ "-on-" +:+ "node-1" +:+ "-with" +:+ tail
    /\ (tail = EmptyString \/ exists hash, tail = "-" +:+ hash).
Proof.
  apply (dispatched_name_shape "apply-k3s-master-plan-on-node-1-with-ab12cd"
           "node-1" "k3s-master-plan"); [reflexivity|reflexivity|discriminate|discriminate].
Defined.

(** ** Transition Tracker: frame, replay and independence of the world *)

Section TrackerFrame.
Context {W : Type} {cluster : Cluster W}.
Variable cfg : Config.

Lemma step_keeps_tracked (states states' : gmap string string) (job_uid k : string)
  (ts : list Transition) :
  step states job_uid states' ts -> is_Some (states !! k) -> is_Some (states' !! k).
Proof.
  intros Hstep Hk. destruct Hstep; [assumption|..];
    (destruct (decide (job_uid = k)) as [->|Hne];
     [rewrite lookup_insert_eq; eauto|now rewrite lookup_insert_ne]).
Qed.

(** X5. Calls about other jobs leave an identity's tracked state as it is:
    after any sequence of calls none of which carries the uid [other], the
    entry of [other] in [job_states] is unchanged. *)
Theorem other_identities_untouched (other : string) (calls : list (WatchEvent * V1Job))
  (s : St W) :
  Forall (fun call => uid (metadata (snd call)) <> other) calls ->
  job_states (run_calls cfg calls s) !! other = job_states s !! other.
Proof.
  intros Hcalls. revert s.
  induction Hcalls as [|[event job] rest Hne _ IH]; intros s; cbn [run_calls];
    [reflexivity|].
  destruct (handle_step cfg event job s) as (w & states & out & -> & Hstep & _).
  rewrite IH. cbn [job_states]. exact (step_frame _ _ _ other _ Hstep Hne).
Qed.

(** X6. The handler never forgets an identity: a uid present in
    [job_states] is still present after any sequence of calls. *)
Theorem tracked_stays_tracked (k : string) (calls : list (WatchEvent * V1Job)) (s : St W) :
  is_Some (job_states s !! k) ->
  is_Some (job_states (run_calls cfg calls s) !! k).
Proof.
  revert s. induction calls as [|[event job] rest IH]; intros s Hk; cbn [run_calls];
    [exact Hk|].
  destruct (handle_step cfg event job s) as (w & states & out & -> & Hstep & _).
  apply IH. cbn [job_states]. exact (step_keeps_tracked _ _ _ k _ Hstep Hk).
Qed.

(** X7. An event for a job outside the [system-upgrade] namespace, or whose
    name does not start with [apply-], or whose name the parser rejects, is
    handled without any effect, whatever its type and status. *)
Theorem foreign_jobs_are_ignored (event : WatchEvent) (job : V1Job) (s : St W) :
  namespace (metadata job) <> "system-upgrade"
  \/ Py.startswith "apply-" (name (metadata job)) = false
  \/ get_node_info_from_job_name (name (metadata job)) = None ->
  handle_job_event cfg event job s = (Ok tt, s, []).
Proof.
  intros Hforeign. apply handle_undispatched.
  destruct (dispatch event job) as [[node_name plan_name]|] eqn:Hd; [|reflexivity].
  apply dispatch_Some in Hd. destruct Hd as (_ & Hns & Hprefix & Hparse & _).
  destruct Hforeign as [H|[H|H]]; congruence.
Qed.

(** X8. A replayed event is silent when the status shows a single phase:
    if at most one of the active, succeeded and failed counts is set, then
    handling the same event a second time, right after the first, announces
    nothing and changes nothing. *)
Theorem replay_is_silent (event : WatchEvent) (job : V1Job) (s : St W) :
  (truthy_count (active (status job)) = true ->
   truthy_count (succeeded (status job)) = false
   /\ truthy_count (failed (status job)) = false) ->
  (truthy_count (succeeded (status job)) = true ->
   truthy_count (failed (status job)) = false) ->
  exists s1 out,
    handle_job_event cfg event job s = (Ok tt, s1, out)
    /\ handle_job_event cfg event job s1 = (Ok tt, s1, []).
Proof.
  intros Hactive Hsucceeded.
  destruct (dispatch event job) as [[node_name plan_name]|] eqn:Hd.
  2:{ exists s, []. now rewrite !(handle_undispatched cfg _ _ _ Hd). }
  apply dispatch_Some in Hd.
  destruct (truthy_count (active (status job))
            && untracked (job_states s) (uid (metadata job))) eqn:Hc1.
  { destruct (handle_started cfg _ _ _ _ s Hd Hc1) as (w & out & -> & _).
    eexists _, out. split; [reflexivity|].
    apply andb_true_iff in Hc1 as [Ha _]. destruct (Hactive Ha) as [Hs Hf].
    apply (handle_quiet cfg _ _ _ _ _ Hd); cbn [job_states];
      rewrite ?Hs, ?Hf; try reflexivity.
    unfold untracked. rewrite lookup_insert_eq. apply andb_false_r. }
  destruct (truthy_count (succeeded (status job))
            && state_differs (job_states s) (uid (metadata job)) "succeeded") eqn:Hc2.
  { destruct (handle_completed cfg _ _ _ _ s Hd Hc1 Hc2) as (w & out & -> & _).
    eexists _, out. split; [reflexivity|].
    apply andb_true_iff in Hc2 as [Hs _]. pose proof (Hsucceeded Hs) as Hf.
    apply (handle_quiet cfg _ _ _ _ _ Hd); cbn [job_states]; rewrite ?Hf; try reflexivity.
    - unfold untracked. rewrite lookup_insert_eq. apply andb_false_r.
    - unfold state_differs. rewrite lookup_insert_eq. apply andb_false_r. }
  destruct (truthy_count (failed (status job))
            && state_differs (job_states s) (uid (metadata job)) "failed") eqn:Hc3.
  { destruct (handle_failed cfg _ _ _ _ s Hd Hc1 Hc2 Hc3) as (w & out & -> & _).
    eexists _, out. split; [reflexivity|].
    apply andb_true_iff in Hc3 as [Hf _].
    assert (truthy_count (succeeded (status job)) = false) as Hs.
    { destruct (truthy_count (succeeded (status job))); [|reflexivity].
      rewrite Hsucceeded in Hf by reflexivity. discriminate. }
    apply (handle_quiet cfg _ _ _ _ _ Hd); cbn [job_states]; rewrite ?Hs; try reflexivity.
    - unfold untracked. rewrite lookup_insert_eq. apply andb_false_r.
    - unfold state_differs. rewrite lookup_insert_eq. apply andb_false_r. }
  exists s, []. now rewrite !(handle_quiet cfg _ _ _ _ s Hd Hc1 Hc2 Hc3).
Qed.

(** X9. An identity already present in [job_states], in whatever state,
    never gets a Started notification: no sequence of calls announces
    Started for it. *)
Theorem tracked_job_never_starts (job_uid : string) (calls : list (WatchEvent * V1Job))
  (s : St W) :
  is_Some (job_states s !! job_uid) ->
  Started ∉ transitions_of cfg job_uid calls s.
Proof.
  intros [state Hstate].
  apply (transitions_of_invariant cfg job_uid calls s). congruence.
Qed.

(** X10. Every notification the handler sends announces a transition; a
    Failed one has priority "high" and the others have priority
    "default". *)
Theorem handler_notification_priorities (event : WatchEvent) (job : V1Job) (s : St W) :
  Forall (fun n : string * string * string =>
            (transition_of_title (fst (fst n)) = Some Failed /\ snd n = "high")
            \/ ((transition_of_title (fst (fst n)) = Some Started
                 \/ transition_of_title (fst (fst n)) = Some Completed)
                /\ snd n = "default"))
    (notifications (snd (handle_job_event cfg event job s))).
Proof.
  destruct (dispatch event job) as [[node_name plan_name]|] eqn:Hd.
  2:{ rewrite (handle_undispatched cfg _ _ _ Hd). constructor. }
  apply dispatch_Some in Hd.
  destruct (truthy_count (active (status job))
            && untracked (job_states s) (uid (metadata job))) eqn:Hc1.
  { destruct (handle_started cfg _ _ _ _ s Hd Hc1) as (w & out & -> & Hout).
    cbn [snd]. rewrite Hout. constructor; [|constructor]. right. cbn [fst snd].
    rewrite transition_of_started. auto. }
  destruct (truthy_count (succeeded (status job))
            && state_differs (job_states s) (uid (metadata job)) "succeeded") eqn:Hc2.
  { destruct (handle_completed cfg _ _ _ _ s Hd Hc1 Hc2) as (w & out & -> & Hout).
    cbn [snd]. rewrite Hout. constructor; [|constructor]. right. cbn [fst snd].
    rewrite transition_of_completed. auto. }
  destruct (truthy_count (failed (status job))
            && state_differs (job_states s) (uid (metadata job)) "failed") eqn:Hc3.
  { destruct (handle_failed cfg _ _ _ _ s Hd Hc1 Hc2 Hc3) as (w & out & -> & Hout).
    cbn [snd]. rewrite Hout. constructor; [|constructor]. left. cbn [fst snd].
    rewrite transition_of_failed. auto. }
  rewrite (handle_quiet cfg _ _ _ _ s Hd Hc1 Hc2 Hc3). constructor.
Qed.
End TrackerFrame.

(** X11. What the tracker does to [job_states], and which transition it
    announces, does not depend on the outside world: with equal maps, two
    runs of the handler on the same event in different worlds and under
    different configurations (endpoint set or not, delivery and version
    lookup failing or not) end with equal maps and announce the same
    transition. *)
Theorem tracker_ignores_the_world {W1 W2 : Type} (cluster1 : Cluster W1)
  (cluster2 : Cluster W2) (cfg1 cfg2 : Config) (event : WatchEvent) (job : V1Job)
  (s1 : St W1) (s2 : St W2) :
  job_states s1 = job_states s2 ->
  job_states (snd (fst (handle_job_event (cluster := cluster1) cfg1 event job s1)))
  = job_states (snd (fst (handle_job_event (cluster := cluster2) cfg2 event job s2)))
  /\ transitions (snd (handle_job_event (cluster := cluster1) cfg1 event job s1))
     = transitions (snd (handle_job_event (cluster := cluster2) cfg2 event job s2)).
Proof.
  intros Heq.
  destruct (dispatch event job) as [[node_name plan_name]|] eqn:Hd.
  2:{ rewrite !(handle_undispatched _ _ _ _ Hd). auto. }
  apply dispatch_Some in Hd.
  destruct (truthy_count (active (status job))
            && untracked (job_states s1) (uid (metadata job))) eqn:Hc1.
  { destruct (handle_started cfg1 _ _ _ _ s1 Hd Hc1) as (w1 & out1 & -> & Hout1).
    rewrite Heq in Hc1.
    destruct (handle_started cfg2 _ _ _ _ s2 Hd Hc1) as (w2 & out2 & -> & Hout2).
    cbn [fst snd job_states]. unfold transitions. rewrite Hout1, Hout2, Heq. auto. }
  destruct (truthy_count (succeeded (status job))
            && state_differs (job_states s1) (uid (metadata job)) "succeeded") eqn:Hc2.
  { destruct (handle_completed cfg1 _ _ _ _ s1 Hd Hc1 Hc2) as (w1 & out1 & -> & Hout1).
    rewrite Heq in Hc1, Hc2.
    destruct (handle_completed cfg2 _ _ _ _ s2 Hd Hc1 Hc2) as (w2 & out2 & -> & Hout2).
    cbn [fst snd job_states]. unfold transitions. rewrite Hout1, Hout2, Heq. auto. }
  destruct (truthy_count (failed (status job))
            && state_differs (job_states s1) (uid (metadata job)) "failed") eqn:Hc3.
  { destruct (handle_failed cfg1 _ _ _ _ s1 Hd Hc1 Hc2 Hc3) as (w1 & out1 & -> & Hout1).
    rewrite Heq in Hc1, Hc2, Hc3.
    destruct (handle_failed cfg2 _ _ _ _ s2 Hd Hc1 Hc2 Hc3) as (w2 & out2 & -> & Hout2).
    cbn [fst snd job_states]. unfold transitions. rewrite Hout1, Hout2, Heq. auto. }
  rewrite (handle_quiet cfg1 _ _ _ _ s1 Hd Hc1 Hc2 Hc3).
  rewrite Heq in Hc1, Hc2, Hc3.
  rewrite (handle_quiet cfg2 _ _ _ _ s2 Hd Hc1 Hc2 Hc3). auto.
Qed.

(** ** Which effects the script can log *)

Section Emits.
Context {W : Type} {cluster : Cluster W}.
Variable cfg : Config.
Variable P : Effect -> Prop.

Lemma emits_only_ret {A} (a : A) : emits_only P (ret (W := W) a).
Proof. intros s. constructor. Qed.

Lemma emits_only_raise {A} (e : exn) : emits_only P (raise (W := W) (A := A) e).
Proof. intros s. constructor. Qed.

Lemma emits_only_emit (e : Effect) : P e -> emits_only P (emit (W := W) e).
Proof. intros He s. cbn. constructor; [assumption|constructor]. Qed.

Lemma emits_only_ask {A} (e : Effect) (oracle : W -> W * Res A) :
  P e -> emits_only P (ask e oracle).
Proof.
  intros He s. unfold ask. destruct (oracle (world s)) as [w r]. cbn.
  constructor; [assumption|constructor].
Qed.

Lemma emits_only_bind {A B} (m : @M W A) (f : A -> @M W B) :
  emits_only P m -> (forall a, emits_only P (f a)) -> emits_only P (bind m f).
Proof.
  intros Hm Hf s. unfold bind. specialize (Hm s).
  destruct (m s) as [[[a|e] s1] out1]; cbn in *; [|assumption].
  specialize (Hf a s1). destruct (f a s1) as [[r s2] out2]; cbn in *.
  apply Forall_app. auto.
Qed.

Lemma emits_only_try_except {A} (body : @M W A) (handler : exn -> @M W A) :
  emits_only P body -> (forall e, emits_only P (handler e)) ->
  emits_only P (try_except body handler).
Proof.
  intros Hbody Hhandler s. unfold try_except. specialize (Hbody s).
  destruct (body s) as [[[a|e] s1] out1]; cbn in *; [assumption|].
  specialize (Hhandler e s1). destruct (handler e s1) as [[r s2] out2]; cbn in *.
  apply Forall_app. auto.
Qed.

Lemma emits_only_if {A} (b : bool) (m1 m2 : @M W A) :
  emits_only P m1 -> emits_only P m2 -> emits_only P (if b then m1 else m2).
Proof. now destruct b. Qed.

Hypothesis P_print : forall line, P (Print line).
Hypothesis P_notification : forall title body priority, P (Notification title body priority).
Hypothesis P_read : forall node_name, P (ReadNode node_name).
Hypothesis P_post : Py.truthy (NTFY_URL cfg) = true -> forall request, P (HttpPost request).

Lemma send_ntfy_notification_emits (title message priority : string) :
  emits_only P (send_ntfy_notification cfg title message priority).
Proof.
  intros s. rewrite send_ntfy_notification_run.
  destruct (Py.truthy (NTFY_URL cfg)) eqn:Hurl; cbn; repeat constructor; auto.
Qed.

Lemma get_k3s_version_from_node_emits (node_name : string) :
  emits_only P (get_k3s_version_from_node node_name).
Proof.
  unfold get_k3s_version_from_node, mbind, M_bind, print.
  apply emits_only_try_except.
  - apply emits_only_bind; [now apply emits_only_ask|]. intros node.
    apply emits_only_bind; [destruct (node_status node); [apply emits_only_ret
                                                         |apply emits_only_raise]|].
    intros st.
    apply emits_only_bind; [destruct (node_info st); [apply emits_only_ret
                                                     |apply emits_only_raise]|].
    intros info. apply emits_only_ret.
  - intros e. apply emits_only_bind; [now apply emits_only_emit|].
    intros _. apply emits_only_ret.
Qed.

Ltac emits_step :=
  first
    [ apply emits_only_ret
    | apply emits_only_raise
    | apply send_ntfy_notification_emits
    | apply get_k3s_version_from_node_emits
    | apply emits_only_emit; solve [auto]
    | apply emits_only_bind; [|intros ?]
    | apply emits_only_try_except; [|intros ?]
    | match goal with
      | |- emits_only _ (if ?b then _ else _) => destruct b
      | |- emits_only _ (match ?x with _ => _ end) => destruct x
      end ].

Lemma handle_job_event_emits (event : WatchEvent) (job : V1Job) :
  emits_only P (handle_job_event cfg event job).
Proof.
  unfold handle_job_event, mbind, M_bind, print.
  repeat emits_step; intros ?; cbn; constructor.
Qed.

Lemma seed_emits (jobs : list V1Job) : emits_only P (seed (W := W) jobs).
Proof.
  induction jobs as [|job rest IH]; cbn [seed]; [apply emits_only_ret|].
  unfold mbind, M_bind. apply emits_only_bind; [|intros _; exact IH].
  destruct (_ && _); [intros s; constructor|apply emits_only_ret].
Qed.

Lemma stream_loop_emits (events : list WatchEvent) (ending : option exn) :
  emits_only P (stream_loop cfg events ending).
Proof.
  induction events as [|event rest IH]; cbn [stream_loop].
  - destruct ending; [apply emits_only_raise|apply emits_only_ret].
  - unfold mbind, M_bind, print. apply emits_only_bind; [|intros _; exact IH].
    apply emits_only_try_except; [apply handle_job_event_emits|].
    intros e. now apply emits_only_emit.
Qed.

Hypothesis P_list : P ListJobs.
Hypothesis P_watch : P WatchStream.
Hypothesis P_sleep : forall seconds, P (Sleep seconds).

Lemma main_emits : emits_only P (main cfg).
Proof.
  unfold main, mbind, M_bind, print, sleep.
  apply emits_only_bind; [now apply emits_only_emit|intros _].
  apply emits_only_bind; [now apply emits_only_emit|intros _].
  apply emits_only_bind; [|intros _].
  { apply emits_only_if; [|apply emits_only_ret].
    apply emits_only_bind; [intros s; constructor|intros t].
    apply send_ntfy_notification_emits. }
  apply emits_only_try_except.
  - apply emits_only_bind; [now apply emits_only_ask|intros jobs].
    apply emits_only_bind; [apply seed_emits|intros _].
    apply emits_only_bind; [|intros stream; apply stream_loop_emits].
    intros s. unfold open_stream. destruct (watch_stream (world s)) as [w stream].
    cbn. constructor; [assumption|constructor].
  - intros e. apply emits_only_bind; [now apply emits_only_emit|intros _].
    apply emits_only_bind; [|intros _; now apply emits_only_emit].
    apply emits_only_if; [|apply emits_only_ret].
    apply send_ntfy_notification_emits.
Qed.
End Emits.

(** ** Seeding and the event loop *)

Section LoopFacts.
Context {W : Type} {cluster : Cluster W}.
Variable cfg : Config.

(** X12. Handling an event never lists jobs, never opens a watch and never
    sleeps, in any world and for any event. *)
Theorem handler_has_no_control_effects (event : WatchEvent) (job : V1Job) (s : St W) :
  Forall (fun e => ~ is_control e) (snd (handle_job_event cfg event job s)).
Proof.
  apply (handle_job_event_emits cfg (fun e => ~ is_control e)); cbn; auto.
Qed.

(** X13. With no endpoint configured the whole run of [main] performs no
    HTTP request, whatever the cluster lists and streams. *)
Theorem main_without_endpoint_posts_nothing (s : St W) :
  NTFY_URL cfg = EmptyString ->
  Forall (fun e => ~ is_http e) (snd (main cfg s)).
Proof.
  intros Hurl. apply (main_emits cfg (fun e => ~ is_http e)); cbn; auto.
  rewrite Hurl. discriminate.
Qed.

Lemma seed_run (jobs : list V1Job) (s : St W) :
  exists states,
    seed jobs s = (Ok tt, Build_St (world s) states, [])
    /\ forall k,
        states !! k =
          if existsb (fun job =>
                        String.eqb (namespace (metadata job)) "system-upgrade"
                        && Py.startswith "apply-" (name (metadata job))
                        && String.eqb (uid (metadata job)) k) jobs
          then Some "initialized"
          else job_states s !! k.
Proof.
  revert s. induction jobs as [|job rest IH]; intros s; cbn [seed existsb].
  - exists (job_states s). destruct s. split; reflexivity.
  - unfold mbind, M_bind, bind.
    destruct (String.eqb (namespace (metadata job)) "system-upgrade"
              && Py.startswith "apply-" (name (metadata job))) eqn:Hmatch.
    + unfold set_job_state.
      destruct (IH (Build_St (world s)
                      (<[uid (metadata job) := "initialized"]> (job_states s))))
        as (states & -> & Hlookup).
      exists states. split; [reflexivity|]. intros k. rewrite Hlookup. cbn [job_states andb].
      destruct (String.eqb_spec (uid (metadata job)) k) as [->|Hne]; cbn [orb].
      * rewrite lookup_insert_eq. now destruct (existsb _ rest).
      * now rewrite lookup_insert_ne.
    + unfold ret. destruct (IH s) as (states & -> & Hlookup).
      exists states. split; [reflexivity|]. intros k. now rewrite Hlookup.
Qed.

(** X14. Seeding logs nothing and leaves the world alone; afterwards every
    listed job of the [system-upgrade] namespace whose name starts with
    [apply-] is tracked as ['initialized'], whatever its state was before,
    and the entry of a uid that no such job carries is unchanged. *)
Theorem seeding_marks_listed_jobs (jobs : list V1Job) (s : St W) :
  exists states,
    seed jobs s = (Ok tt, Build_St (world s) states, [])
    /\ (forall job,
          job ∈ jobs ->
          namespace (metadata job) = "system-upgrade" ->
          Py.startswith "apply-" (name (metadata job)) = true ->
          states !! uid (metadata job) = Some "initialized")
    /\ (forall k,
          (forall job,
              job ∈ jobs ->
              namespace (metadata job) = "system-upgrade" ->
              Py.startswith "apply-" (name (metadata job)) = true ->
              uid (metadata job) <> k) ->
          states !! k = job_states s !! k).
Proof.
  destruct (seed_run jobs s) as (states & Hrun & Hlookup).
  exists states. split; [exact Hrun|]. split.
  - intros job Hin Hns Hprefix. rewrite Hlookup.
    assert (existsb (fun job0 =>
                       String.eqb (namespace (metadata job0)) "system-upgrade"
                       && Py.startswith "apply-" (name (metadata job0))
                       && String.eqb (uid (metadata job0)) (uid (metadata job))) jobs
            = true) as ->; [|reflexivity].
    apply existsb_exists. exists job. split; [now apply list_elem_of_In|].
    now rewrite Hns, Hprefix, !String.eqb_refl.
  - intros k Hnone. rewrite Hlookup.
    destruct (existsb _ jobs) eqn:Hex; [|reflexivity].
    apply existsb_exists in Hex as (job & Hin & Hjob).
    apply andb_true_iff in Hjob as [Hjob Huid].
    apply andb_true_iff in Hjob as [Hns Hprefix].
    apply String.eqb_eq in Hns, Huid. apply list_elem_of_In in Hin.
    now destruct (Hnone job Hin Hns Hprefix).
Qed.

(** X15. A job that existed at startup never gets a Started notification:
    after seeding with a list that contains it, no sequence of calls
    announces Started for its uid. *)
Theorem seeded_job_never_starts (jobs : list V1Job) (job : V1Job)
  (calls : list (WatchEvent * V1Job)) (s : St W) :
  job ∈ jobs ->
  namespace (metadata job) = "system-upgrade" ->
  Py.startswith "apply-" (name (metadata job)) = true ->
  Started ∉ transitions_of cfg (uid (metadata job)) calls (snd (fst (seed jobs s))).
Proof.
  intros Hin Hns Hprefix.
  destruct (seed_run jobs s) as (states & -> & Hlookup). cbn [fst snd].
  apply (transitions_of_invariant cfg). cbn [job_states]. rewrite Hlookup.
  assert (existsb (fun job0 =>
                     String.eqb (namespace (metadata job0)) "system-upgrade"
                     && Py.startswith "apply-" (name (metadata job0))
                     && String.eqb (uid (metadata job0)) (uid (metadata job))) jobs
          = true) as ->; [|discriminate].
  apply existsb_exists. exists job. split; [now apply list_elem_of_In|].
  now rewrite Hns, Hprefix, !String.eqb_refl.
Qed.

Lemma stream_loop_runs_calls (events : list WatchEvent) (ending : option exn)
  (s : St W) :
  exists out,
    stream_loop cfg events ending s
    = (match ending with
       | Some e => Raise e
       | None => Ok tt
       end,
       run_calls cfg (calls_of events) s, out).
Proof.
  revert s. induction events as [|event rest IH]; intros s;
    cbn [stream_loop calls_of map run_calls].
  - destruct ending; eexists; reflexivity.
  - unfold mbind, M_bind, bind, try_except.
    destruct (handle_step cfg event (object event) s) as (w & states & out & -> & _).
    fold (calls_of rest).
    destruct (IH (Build_St w states)) as (out' & ->). eauto.
Qed.

(** X16. The stream loop handles the events in order, each on the state
    the previous one left: its final state is that of the calls one after
    another, and it raises exactly when the stream itself raised; no event's
    handling ends the loop. *)
Theorem stream_loop_is_run_calls (events : list WatchEvent) (ending : option exn)
  (s : St W) :
  fst (stream_loop cfg events ending s)
  = (match ending with
     | Some e => Raise e
     | None => Ok tt
     end,
     run_calls cfg (calls_of events) s).
Proof.
  destruct (stream_loop_runs_calls events ending s) as (out & ->). reflexivity.
Qed.
End LoopFacts.

(** ** The main routine *)

Section MainFacts.
Context {W : Type} {cluster : Cluster W}.
Variable cfg : Config.

Lemma startup_notice_run (s : St W) :
  exists w out,
    (if Py.truthy (NTFY_URL cfg)
     then bind now (fun started_at =>
            send_ntfy_notification cfg "Monitor Started"
              ("📡 K3s upgrade monitoring service started at " +:+ started_at) "default")
     else ret tt) s
    = (Ok tt, Build_St w (job_states s), out)
    /\ Forall (fun e => ~ is_control e) out.
Proof.
  destruct (Py.truthy (NTFY_URL cfg)) eqn:Hurl.
  - unfold bind, now.
    rewrite send_ntfy_notification_run, Hurl. cbn.
    eexists _, _. split; [reflexivity|]. repeat constructor; cbn; auto.
  - exists (world s), []. destruct s. split; [reflexivity|constructor].
Qed.

Lemma no_control_no_pause (out : list Effect) :
  Forall (fun e => ~ is_control e) out ->
  Forall (fun e => e <> WatchStream /\ forall seconds, e <> Sleep seconds) out.
Proof.
  intros Hout. eapply Forall_impl; [exact Hout|].
  intros e He. split; [|intros seconds]; intros ->; apply He; exact I.
Qed.

(** X17. When the job listing raises, [main] never opens the watch. Its
    whole log is: the two startup lines; with an endpoint configured, the
    "Monitor Started" notice (one POST and its log line); the listing; the
    line "Error in main loop: <error>"; with an endpoint configured, the
    "Monitor Error" notice with priority "high" (one POST and its log
    line); and the ten-second sleep as the last effect. It returns normally
    with [job_states] as it was. *)
Theorem main_when_listing_fails (s : St W) :
  (forall w, exists e, snd (list_job_for_all_namespaces w) = Raise e) ->
  exists s' w e answer1 answer2,
    snd (list_job_for_all_namespaces w) = Raise e
    /\ main cfg s =
         (Ok tt, s',
          [Print "Starting K3s upgrade monitor...";
           Print ("NTFY URL: " +:+
                  (if Py.truthy (NTFY_URL cfg) then "configured" else "not configured"))]
          ++ (if Py.truthy (NTFY_URL cfg) then
                [Notification "Monitor Started"
                   ("📡 K3s upgrade monitoring service started at "
                    +:+ strftime_now (world s)) "default";
                 HttpPost (ntfy_request cfg "Monitor Started"
                   ("📡 K3s upgrade monitoring service started at "
                    +:+ strftime_now (world s)) "default");
                 Print (ntfy_log_line "Monitor Started" answer1)]
              else [])
          ++ [ListJobs; Print ("Error in main loop: " +:+ str_exn e)]
          ++ (if Py.truthy (NTFY_URL cfg) then
                [Notification "Monitor Error"
                   ("⚠️ K3s upgrade monitor encountered an error: " +:+ str_exn e) "high";
                 HttpPost (ntfy_request cfg "Monitor Error"
                   ("⚠️ K3s upgrade monitor encountered an error: " +:+ str_exn e) "high");
                 Print (ntfy_log_line "Monitor Error" answer2)]
              else [])
          ++ [Sleep 10])
    /\ job_states s' = job_states s.
Proof.
  intros Hfail. unfold main, mbind, M_bind.
  unfold bind at 1 2 3, print, emit.
  destruct (Py.truthy (NTFY_URL cfg)) eqn:Hurl.
  - unfold bind at 1, now. rewrite send_ntfy_notification_run, Hurl. cbn [negb].
    cbv zeta. cbn [world job_states].
    set (request1 := ntfy_request cfg "Monitor Started" _ "default").
    destruct (requests_post (world s) request1) as [w1 answer1] eqn:Hpost1.
    cbn [fst snd].
    unfold try_except, bind at 1, ask. cbn [world job_states].
    destruct (list_job_for_all_namespaces w1) as [w2 listing] eqn:Hlist.
    destruct (Hfail w1) as [e He]. rewrite Hlist in He. cbn in He. subst listing.
    unfold bind at 1 2. rewrite send_ntfy_notification_run, Hurl. cbn [negb].
    cbv zeta. cbn [world job_states].
    set (request2 := ntfy_request cfg "Monitor Error" _ "high").
    destruct (requests_post w2 request2) as [w3 answer2] eqn:Hpost2.
    cbn [fst snd]. unfold sleep, emit.
    exists (Build_St w3 (job_states s)), w1, e, answer1, answer2.
    split; [now rewrite Hlist|]. split; reflexivity.
  - unfold ret. unfold try_except, bind at 1, ask.
    destruct (list_job_for_all_namespaces (world s)) as [w2 listing] eqn:Hlist.
    destruct (Hfail (world s)) as [e He]. rewrite Hlist in He. cbn in He. subst listing.
    unfold bind at 1 2, ret, sleep, emit. cbn [job_states].
    exists (Build_St w2 (job_states s)), (world s), e, (Raise e), (Raise e).
    split; [now rewrite Hlist|]. split; reflexivity.
Qed.

(** X18. When the listing succeeds and the watch stream ends without
    raising, [main] returns without the error pause: it never sleeps. *)
Theorem main_when_stream_ends (s : St W) :
  (forall w, exists jobs, snd (list_job_for_all_namespaces w) = Ok jobs) ->
  (forall w, snd (snd (watch_stream w)) = None) ->
  exists s' out,
    main cfg s = (Ok tt, s', out)
    /\ Forall (fun e => forall seconds, e <> Sleep seconds) out.
Proof.
  intros Hlisting Hending. unfold main, mbind, M_bind.
  unfold bind at 1 2 3, print, emit.
  destruct (startup_notice_run s) as (w1 & out1 & -> & Hout1).
  unfold try_except, bind at 1, ask. cbn [world job_states].
  destruct (list_job_for_all_namespaces w1) as [w2 listing] eqn:Hlist.
  destruct (Hlisting w1) as [jobs Hjobs]. rewrite Hlist in Hjobs. cbn in Hjobs.
  subst listing. unfold bind at 1.
  destruct (seed_run jobs (Build_St w2 (job_states s))) as (states & -> & _).
  unfold bind at 1, open_stream. cbn [world job_states].
  destruct (watch_stream w2) as [w3 [events ending]] eqn:Hwatch.
  pose proof (Hending w2) as Hnone. rewrite Hwatch in Hnone. cbn in Hnone. subst ending.
  cbn [fst snd].
  pose proof (stream_loop_emits cfg (fun e => forall seconds, e <> Sleep seconds)) as Hloop.
  specialize (Hloop ltac:(discriminate) ltac:(discriminate) ltac:(discriminate)
                    ltac:(discriminate) events None (Build_St w3 states)).
  destruct (stream_loop_runs_calls cfg events None (Build_St w3 states)) as (out4 & Hrun).
  rewrite Hrun in Hloop |- *. cbn [snd] in Hloop.
  eexists _, _. split; [reflexivity|].
  apply no_control_no_pause in Hout1.
  repeat (apply Forall_cons; split; [intros; discriminate|]).
  apply Forall_app. split; [eapply Forall_impl; [exact Hout1|]; intros e [_ He]; exact He|].
  repeat (apply Forall_cons; split; [intros; discriminate|]).
  cbn [app]. repeat (apply Forall_cons; split; [intros; discriminate|]). exact Hloop.
Qed.
End MainFacts.

(** ** The cost of one event *)

Section Cost.
Context {W : Type} {cluster : Cluster W}.
Variable cfg : Config.
Variable kind : Effect -> bool.

Lemma count_effects_app (out1 out2 : list Effect) :
  count_effects kind (out1 ++ out2) = count_effects kind out1 + count_effects kind out2.
Proof. unfold count_effects. now rewrite List.filter_app, length_app. Qed.

Lemma logs_at_most_pure {A} (m : @M W A) (n : nat) :
  (forall s, snd (m s) = []) -> logs_at_most kind n m.
Proof. intros Hm s. rewrite Hm. cbn. lia. Qed.

Lemma logs_at_most_bind {A B} (n1 n2 n : nat) (m : @M W A) (f : A -> @M W B) :
  logs_at_most kind n1 m -> (forall a, logs_at_most kind n2 (f a)) -> n1 + n2 <= n ->
  logs_at_most kind n (bind m f).
Proof.
  intros Hm Hf Hn s. unfold bind. specialize (Hm s).
  destruct (m s) as [[[a|e] s1] out1]; cbn [snd] in *; [|lia].
  specialize (Hf a s1). destruct (f a s1) as [[r s2] out2]; cbn [snd] in *.
  rewrite count_effects_app. lia.
Qed.

Lemma logs_at_most_try_except {A} (n1 n2 n : nat) (body : @M W A)
  (handler : exn -> @M W A) :
  logs_at_most kind n1 body -> (forall e, logs_at_most kind n2 (handler e)) ->
  n1 + n2 <= n ->
  logs_at_most kind n (try_except body handler).
Proof.
  intros Hbody Hhandler Hn s. unfold try_except. specialize (Hbody s).
  destruct (body s) as [[[a|e] s1] out1]; cbn [snd] in *; [lia|].
  specialize (Hhandler e s1). destruct (handler e s1) as [[r s2] out2]; cbn [snd] in *.
  rewrite count_effects_app. lia.
Qed.

Lemma logs_at_most_print (line : string) (n : nat) :
  kind (Print line) = false -> logs_at_most kind n (print (W := W) line).
Proof. intros Hk s. cbn. unfold count_effects. cbn. rewrite Hk. cbn. lia. Qed.

Variables posts reads : nat.
Hypothesis kind_print : forall line, kind (Print line) = false.
Hypothesis kind_notification :
  forall title body priority, kind (Notification title body priority) = false.
Hypothesis kind_post : forall request, (if kind (HttpPost request) then 1 else 0) <= posts.
Hypothesis kind_read : forall node_name, (if kind (ReadNode node_name) then 1 else 0) <= reads.

Lemma send_ntfy_notification_cost (title message priority : string) :
  logs_at_most kind posts (send_ntfy_notification cfg title message priority).
Proof.
  intros s. rewrite send_ntfy_notification_run.
  pose proof (kind_post (ntfy_request cfg title message priority)) as Hpost.
  destruct (negb (Py.truthy (NTFY_URL cfg))); unfold count_effects; cbn;
    rewrite kind_notification, ?kind_print;
    destruct (kind (HttpPost _)); cbn; rewrite ?kind_print; cbn; lia.
Qed.

Lemma get_k3s_version_from_node_cost (node_name : string) :
  logs_at_most kind reads (get_k3s_version_from_node node_name).
Proof.
  intros s. pose proof (kind_read node_name) as Hread.
  unfold get_k3s_version_from_node, mbind, M_bind, bind, try_except, ask, getattr, print,
    emit, raise, ret.
  destruct (read_node (world s) node_name) as [w [[[[[info|]]|]]|e]];
    unfold count_effects; cbn; rewrite ?kind_print;
    destruct (kind (ReadNode node_name)); cbn; lia.
Qed.

(** One rule of the chain: update, look the version up, notify, print. *)
Lemma rule_cost (job_uid state node_name title priority line : string)
  (message : string -> string) :
  logs_at_most kind (posts + reads)
    (bind (set_job_state job_uid state) (fun _ =>
       bind (get_k3s_version_from_node node_name) (fun k3s_version =>
         bind (send_ntfy_notification cfg title (message k3s_version) priority) (fun _ =>
           print line)))).
Proof.
  apply (logs_at_most_bind 0 (posts + reads)); [now apply logs_at_most_pure| |lia].
  intros _.
  apply (logs_at_most_bind reads posts); [apply get_k3s_version_from_node_cost| |lia].
  intros k3s_version.
  apply (logs_at_most_bind posts 0); [apply send_ntfy_notification_cost| |lia].
  intros _. apply logs_at_most_print. apply kind_print.
Qed.

Lemma handle_job_event_cost (event : WatchEvent) (job : V1Job) :
  logs_at_most kind (posts + reads) (handle_job_event cfg event job).
Proof.
  unfold handle_job_event, mbind, M_bind.
  repeat match goal with
         | |- logs_at_most _ _ (if ?b then _ else _) => destruct b
         | |- logs_at_most _ _ (match ?x with _ => _ end) => destruct x
         | |- logs_at_most _ _ (ret _) => now apply logs_at_most_pure
         | |- logs_at_most _ _ (bind now _) =>
             apply (logs_at_most_bind 0 (posts + reads));
             [now apply logs_at_most_pure|intros ?|lia]
         | |- logs_at_most _ _ (bind get_job_states _) =>
             apply (logs_at_most_bind 0 (posts + reads));
             [now apply logs_at_most_pure|intros ?|lia]
         | |- logs_at_most _ _ (bind (set_job_state _ _) _) =>
             apply (rule_cost _ _ _ _ _ _ (fun version => _))
         end.
Qed.
End Cost.

Section Robustness.
Context {W : Type} {cluster : Cluster W}.
Variable cfg : Config.

(** X19. One event costs at most one node read and at most one HTTP
    request, in any world and under any configuration. *)
Theorem one_read_one_post_per_event (event : WatchEvent) (job : V1Job) (s : St W) :
  count_effects is_read (snd (handle_job_event cfg event job s)) <= 1
  /\ count_effects is_post (snd (handle_job_event cfg event job s)) <= 1.
Proof.
  split.
  - apply (handle_job_event_cost cfg is_read 0 1); intros; cbn; auto.
  - apply (handle_job_event_cost cfg is_post 1 0); intros; cbn; auto.
Qed.

(** X20. For a job as the API server returns it (name, uid and namespace
    are strings, the status is present), the handler returns normally in
    every world: whatever the HTTP request and the node read return or
    raise, nothing is raised to the event loop. *)
Theorem handler_never_raises (event : WatchEvent) (job : V1Job) (s : St W) :
  fst (fst (handle_job_event cfg event job s)) = Ok tt.
Proof.
  destruct (handle_step cfg event job s) as (w & states & out & -> & _). reflexivity.
Qed.

(** X21. No exception escapes [main]: whatever the listing and the stream
    do, it returns normally once the stream has ended or raised. *)
Theorem no_exception_escapes_main (s : St W) :
  fst (fst (main cfg s)) = Ok tt.
Proof.
  destruct (main_always_returns cfg s) as (s' & out & ->). reflexivity.
Qed.
End Robustness.

(** ** Concrete runs of the further properties *)

Lemma other_identities_untouched_witness :
  job_states
    (run_calls (cluster := quiet_world) cfg_ntfy
       [(modified (upgrade_job "uid-2" status_retried), upgrade_job "uid-2" status_retried)]
       (state_of {[ "uid-1" := "running" ]})) !! "uid-1"
  = job_states (state_of {[ "uid-1" := "running" ]}) !! "uid-1".
Proof.
  apply (@other_identities_untouched unit quiet_world cfg_ntfy "uid-1").
  constructor; [cbn; discriminate|constructor].
Defined.

Lemma tracked_stays_tracked_witness :
  is_Some
    (job_states
       (run_calls (cluster := quiet_world) cfg_ntfy
          [(modified (upgrade_job "uid-1" status_retried),
            upgrade_job "uid-1" status_retried)]
          (state_of {[ "uid-1" := "initialized" ]})) !! "uid-1").
Proof.
  apply (@tracked_stays_tracked unit quiet_world cfg_ntfy "uid-1").
  exists "initialized". reflexivity.
Defined.

Lemma foreign_jobs_are_ignored_witness :
  handle_job_event (cluster := quiet_world) cfg_ntfy (modified foreign_job) foreign_job
    (state_of ∅)
  = (Ok tt, state_of ∅, []).
Proof.
  apply (@foreign_jobs_are_ignored unit quiet_world cfg_ntfy). left. discriminate.
Defined.

Lemma replay_is_silent_witness :
  exists s1 out,
    handle_job_event (cluster := quiet_world) cfg_ntfy
      (modified (upgrade_job "uid-1" status_succeeded))
      (upgrade_job "uid-1" status_succeeded) (state_of ∅)
    = (Ok tt, s1, out)
    /\ handle_job_event (cluster := quiet_world) cfg_ntfy
         (modified (upgrade_job "uid-1" status_succeeded))
         (upgrade_job "uid-1" status_succeeded) s1
       = (Ok tt, s1, []).
Proof.
  apply (@replay_is_silent unit quiet_world cfg_ntfy
           (modified (upgrade_job "uid-1" status_succeeded))
           (upgrade_job "uid-1" status_succeeded) (state_of ∅)).
  - discriminate.
  - reflexivity.
Defined.

Lemma tracked_job_never_starts_witness :
  Started ∉ transitions_of (cluster := quiet_world) cfg_ntfy "uid-1"
    [(modified (upgrade_job "uid-1" status_active), upgrade_job "uid-1" status_active);
     (modified (upgrade_job "uid-1" status_succeeded), upgrade_job "uid-1" status_succeeded)]
    (state_of {[ "uid-1" := "initialized" ]}).
Proof.
  apply (@tracked_job_never_starts unit quiet_world cfg_ntfy "uid-1").
  exists "initialized". reflexivity.
Defined.

Lemma tracker_ignores_the_world_witness :
  job_states
    (snd (fst (handle_job_event (cluster := quiet_world) cfg_ntfy
                 (modified (upgrade_job "uid-1" status_failed))
                 (upgrade_job "uid-1" status_failed) (state_of ∅))))
  = job_states
      (snd (fst (handle_job_event (cluster := failing_world) cfg_silent
                   (modified (upgrade_job "uid-1" status_failed))
                   (upgrade_job "uid-1" status_failed) (state_of ∅))))
  /\ transitions
       (snd (handle_job_event (cluster := quiet_world) cfg_ntfy
               (modified (upgrade_job "uid-1" status_failed))
               (upgrade_job "uid-1" status_failed) (state_of ∅)))
     = transitions
         (snd (handle_job_event (cluster := failing_world) cfg_silent
                 (modified (upgrade_job "uid-1" status_failed))
                 (upgrade_job "uid-1" status_failed) (state_of ∅))).
Proof.
  apply (tracker_ignores_the_world quiet_world failing_world cfg_ntfy cfg_silent).
  reflexivity.
Defined.

Lemma main_without_endpoint_posts_nothing_witness :
  Forall (fun e => ~ is_http e)
    (snd (main (cluster := scripted [] [modified (upgrade_job "uid-1" status_active)] None)
            cfg_silent (state_of ∅))).
Proof.
  apply (@main_without_endpoint_posts_nothing unit
           (scripted [] [modified (upgrade_job "uid-1" status_active)] None) cfg_silent).
  reflexivity.
Defined.

Lemma seeded_job_never_starts_witness :
  Started ∉ transitions_of (cluster := quiet_world) cfg_ntfy
    (uid (metadata (upgrade_job "uid-1" status_active)))
    [(modified (upgrade_job "uid-1" status_active), upgrade_job "uid-1" status_active)]
    (snd (fst (seed [upgrade_job "uid-1" status_active] (state_of ∅)))).
Proof.
  apply (@seeded_job_never_starts unit quiet_world cfg_ntfy
           [upgrade_job "uid-1" status_active] (upgrade_job "uid-1" status_active)).
  - apply list_elem_of_here.
  - reflexivity.
  - reflexivity.
Defined.

Lemma main_when_listing_fails_witness :
  exists s' w e answer1 answer2,
    snd (list_job_for_all_namespaces (Cluster := failing_world) w) = Raise e
    /\ main (cluster := failing_world) cfg_ntfy (state_of {[ "uid-1" := "running" ]}) =
         (Ok tt, s',
          [Print "Starting K3s upgrade monitor...";
           Print "NTFY URL: configured"]
          ++ [Notification "Monitor Started"
                "📡 K3s upgrade monitoring service started at 2024-05-01 12:00:00" "default";
              HttpPost (ntfy_request cfg_ntfy "Monitor Started"
                "📡 K3s upgrade monitoring service started at 2024-05-01 12:00:00" "default");
              Print (ntfy_log_line "Monitor Started" answer1)]
          ++ [ListJobs; Print ("Error in main loop: " +:+ str_exn e)]
          ++ [Notification "Monitor Error"
                ("⚠️ K3s upgrade monitor encountered an error: " +:+ str_exn e) "high";
              HttpPost (ntfy_request cfg_ntfy "Monitor Error"
                ("⚠️ K3s upgrade monitor encountered an error: " +:+ str_exn e) "high");
              Print (ntfy_log_line "Monitor Error" answer2)]
          ++ [Sleep 10])
    /\ job_states s' = job_states (state_of {[ "uid-1" := "running" ]}).
Proof.
  apply (@main_when_listing_fails unit failing_world cfg_ntfy).
  intros w. eexists. reflexivity.
Defined.

Lemma main_when_stream_ends_witness :
  exists s' out,
    main (cluster := quiet_world) cfg_ntfy (state_of ∅) = (Ok tt, s', out)
    /\ Forall (fun e => forall seconds, e <> Sleep seconds) out.
Proof.
  apply (@main_when_stream_ends unit quiet_world cfg_ntfy).
  - intros w. eexists. reflexivity.
  - intros w. reflexivity.
Defined.
